(** * PTOfwdownloader: the download-and-verify pipeline

    A shallow embedding of [src/PTOfwdownloader.py] (class
    [USPTOFileWrapperDownloader]): the helpers [verify_pdf],
    [get_redirect_url], [download_final] and the worker [run_process].

    - Python [str] values are Rocq [string]s; a character is a code point
      below 256.  Byte strings ([b'%PDF'], file contents) are [string]s as
      well, one character per byte.
    - Values decoded by [json.loads] are the inductive type [pyval].
    - The file system is a finite map from paths to files; the network
      (the list endpoint and the two [curl] invocations) and the stop button
      are fields of a [World] record.
    - An uncaught Python exception is the constructor [Raise]; the
      [try/except] blocks of the source are written out where they stand.
    - The Tk widgets, the log pane and the progress bar are presentation and
      are left out; the calls of external commands are recorded in a trace. *)

From Stdlib Require Import String Ascii List ZArith Lia Bool.
From stdpp Require Import base gmap strings list pretty.

#[local] Set Warnings "-register-all".

Local Open Scope string_scope.

(** ** Python string primitives *)

Module PyStr.

Definition LF : ascii := "010"%char.
Definition CR : ascii := "013"%char.
Definition CRLF : string := String CR (String LF EmptyString).

(** [str.isspace] on one character, for code points below 256: TAB, LF, VT,
    FF, CR, the separators FS GS RS US, SPACE, NEL and NBSP.  The regular
    expression class [\s] and [str.strip]/[str.split] all use it. *)
Definition isspace (c : ascii) : bool :=
  let n := nat_of_ascii c in
  (Nat.leb 9 n && Nat.leb n 13) || (Nat.leb 28 n && Nat.leb n 32)
  || Nat.eqb n 133 || Nat.eqb n 160.

Definition is_empty (s : string) : bool :=
  match s with EmptyString => true | String _ _ => false end.

Fixpoint lstrip (s : string) : string :=
  match s with
  | EmptyString => EmptyString
  | String c s' => if isspace c then lstrip s' else s
  end.

Fixpoint rstrip (s : string) : string :=
  match s with
  | EmptyString => EmptyString
  | String c s' =>
      let r := rstrip s' in
      if isspace c && is_empty r then EmptyString else String c r
  end.

(** [s.strip()] *)
Definition strip (s : string) : string := rstrip (lstrip s).

(** [s.replace(c, r)] for a one-character pattern [c]. *)
Fixpoint replace (c : ascii) (r : string) (s : string) : string :=
  match s with
  | EmptyString => EmptyString
  | String x s' =>
      if Ascii.eqb x c then r +:+ replace c r s' else String x (replace c r s')
  end.

(** [s.split()]: the maximal runs of non-space characters, in order.
    [cur] is the run being read. *)
Fixpoint split_from (cur : string) (s : string) : list string :=
  match s with
  | EmptyString => if is_empty cur then [] else [cur]
  | String c s' =>
      if isspace c
      then (if is_empty cur then split_from EmptyString s'
            else cur :: split_from EmptyString s')
      else split_from (cur +:+ String c EmptyString) s'
  end.

Definition split (s : string) : list string := split_from EmptyString s.

(** [s.split(c)[0]]: the text before the first [c] (all of [s] without one). *)
Fixpoint split_head (c : ascii) (s : string) : string :=
  match s with
  | EmptyString => EmptyString
  | String x s' => if Ascii.eqb x c then EmptyString else String x (split_head c s')
  end.

(** [str.upper] on the letters a-z; the other characters are kept.  (No
    character outside a-z has P, D or F as its upper case, which is all the
    comparison with ['PDF'] looks at.) *)
Definition upper_char (c : ascii) : ascii :=
  let n := nat_of_ascii c in
  if Nat.leb 97 n && Nat.leb n 122 then ascii_of_nat (n - 32) else c.

Fixpoint upper (s : string) : string :=
  match s with
  | EmptyString => EmptyString
  | String c s' => String (upper_char c) (upper s')
  end.

End PyStr.

(** ** The regular expression of [get_redirect_url]

    A backtracking matcher in the order Python's [re] tries alternatives:
    a greedy repetition takes the longest run first and gives characters
    back one at a time. *)

Module Re.
Import PyStr.

Inductive atom : Type :=
| Bol                          (* ^ under re.MULTILINE *)
| Eol                          (* $ under re.MULTILINE *)
| One (p : ascii -> bool)      (* one character of a class *)
| Star (p : ascii -> bool)     (* greedy p* *)
| Opt (p : ascii -> bool)      (* greedy p? *)
| GOpen                        (* ( *)
| GClose.                      (* ) *)

(** Group 1 while matching: not opened, being read, closed. *)
Inductive group : Type :=
| GNone
| GIn (txt : string)
| GDone (txt : string).

Definition push (c : ascii) (g : group) : group :=
  match g with
  | GIn t => GIn (t +:+ String c EmptyString)
  | _ => g
  end.

Definition at_bol (prev : option ascii) : bool :=
  match prev with None => true | Some c => Ascii.eqb c LF end.

Definition at_eol (s : string) : bool :=
  match s with EmptyString => true | String c _ => Ascii.eqb c LF end.

(** [rmatch pat prev s g]: match [pat] at the head of [s], the character
    before it being [prev]; the group of the first match found. *)
Fixpoint rmatch (pat : list atom) : option ascii -> string -> group -> option group :=
  match pat with
  | [] => fun _ _ g => Some g
  | Bol :: pat' => fun prev s g => if at_bol prev then rmatch pat' prev s g else None
  | Eol :: pat' => fun prev s g => if at_eol s then rmatch pat' prev s g else None
  | One p :: pat' => fun prev s g =>
      match s with
      | String c s' => if p c then rmatch pat' (Some c) s' (push c g) else None
      | EmptyString => None
      end
  | Star p :: pat' =>
      fix star (prev : option ascii) (s : string) (g : group) : option group :=
        match s with
        | String c s' =>
            if p c then
              match star (Some c) s' (push c g) with
              | Some r => Some r
              | None => rmatch pat' prev s g
              end
            else rmatch pat' prev s g
        | EmptyString => rmatch pat' prev s g
        end
  | Opt p :: pat' => fun prev s g =>
      match s with
      | String c s' =>
          if p c then
            match rmatch pat' (Some c) s' (push c g) with
            | Some r => Some r
            | None => rmatch pat' prev s g
            end
          else rmatch pat' prev s g
      | EmptyString => rmatch pat' prev s g
      end
  | GOpen :: pat' => fun prev s _ => rmatch pat' prev s (GIn EmptyString)
  | GClose :: pat' => fun prev s g =>
      rmatch pat' prev s (match g with GIn t => GDone t | _ => g end)
  end.

(** [re.search]: the first position, from the left, where the pattern
    matches; the end of the text is a position too. *)
Fixpoint search_from (pat : list atom) (prev : option ascii) (s : string) : option group :=
  match rmatch pat prev s GNone with
  | Some g => Some g
  | None =>
      match s with
      | String c s' => search_from pat (Some c) s'
      | EmptyString => None
      end
  end.

(** [re.search(pat, s, re.MULTILINE)] followed by [.group(1)]. *)
Definition search_group1 (pat : list atom) (s : string) : option string :=
  match search_from pat None s with
  | Some (GDone t) => Some t
  | Some _ => Some EmptyString
  | None => None
  end.

Definition is_char (c : ascii) : ascii -> bool := fun x => Ascii.eqb x c.
Definition dot : ascii -> bool := fun x => negb (Ascii.eqb x LF).

Definition lit (s : string) : list atom :=
  map (fun c => One (is_char c)) (list_ascii_of_string s).

(** Greedy [p+] is [p] followed by greedy [p*]. *)
Definition plus (p : ascii -> bool) : list atom := [One p; Star p].

End Re.

(** ** Python values and exceptions *)

Module Py.
Import PyStr.

(** A computation that may end in an uncaught exception. *)
Inductive exc (A : Type) : Type :=
| Ret (a : A)
| Raise.
Arguments Ret {A} a.
Arguments Raise {A}.

#[global] Instance exc_ret : MRet exc := fun A a => Ret a.
#[global] Instance exc_bind : MBind exc := fun A B k m =>
  match m with Ret a => k a | Raise => Raise end.

(** [try: body except: handler] for a body that returns a value. *)
Definition try_except {A : Type} (body : exc A) (handler : A) : A :=
  match body with Ret a => a | Raise => handler end.

(** What [json.loads] returns (numbers without fraction or exponent). A
    [PyDict] lists the keys of the dict once each, in insertion order. *)
Inductive pyval : Type :=
| PyNone
| PyBool (b : bool)
| PyInt (z : Z)
| PyStr (s : string)
| PyList (items : list pyval)
| PyDict (items : list (string * pyval)).

(** Truth value of a Python object, as [if x:] and [not x] take it. *)
Definition truthy (v : pyval) : bool :=
  match v with
  | PyNone => false
  | PyBool b => b
  | PyInt z => negb (Z.eqb z 0)
  | PyStr s => negb (is_empty s)
  | PyList l => match l with [] => false | _ :: _ => true end
  | PyDict l => match l with [] => false | _ :: _ => true end
  end.

Fixpoint assoc (k : string) (kv : list (string * pyval)) : option pyval :=
  match kv with
  | [] => None
  | (k', v) :: kv' => if String.eqb k k' then Some v else assoc k kv'
  end.

(** [d.get(k, default)]; only a dict has the method (AttributeError). *)
Definition get (d : pyval) (k : string) (default : pyval) : exc pyval :=
  match d with
  | PyDict kv => Ret (match assoc k kv with Some v => v | None => default end)
  | _ => Raise
  end.

(** [isinstance(v, list)] *)
Definition is_list (v : pyval) : bool :=
  match v with PyList _ => true | _ => false end.

(** [len(v)]: TypeError on an object without a length. *)
Definition len (v : pyval) : exc nat :=
  match v with
  | PyStr s => Ret (String.length s)
  | PyList l => Ret (length l)
  | PyDict l => Ret (length l)
  | _ => Raise
  end.

(** The items [for x in v] runs over: the elements of a list, the
    characters of a string, the keys of a dict; TypeError otherwise. *)
Definition iter (v : pyval) : exc (list pyval) :=
  match v with
  | PyList l => Ret l
  | PyStr s => Ret (map (fun c => PyStr (String c EmptyString)) (list_ascii_of_string s))
  | PyDict l => Ret (map (fun kv => PyStr (fst kv)) l)
  | _ => Raise
  end.

(** A method of [str] called on [v]: AttributeError when [v] is no string. *)
Definition str_method {A : Type} (f : string -> A) (v : pyval) : exc A :=
  match v with PyStr s => Ret (f s) | _ => Raise end.

(** [f"{v}"].  [repr] is Python's rendering of lists and dicts, which the
    program never looks into. *)
Definition format (repr : pyval -> string) (v : pyval) : string :=
  match v with
  | PyNone => "None"
  | PyBool true => "True"
  | PyBool false => "False"
  | PyInt z => pretty z
  | PyStr s => s
  | _ => repr v
  end.

End Py.

(** ** The file system *)

Module OS.
Import PyStr Py.

(** A directory entry.  [readable = false] stands for every reason [open]
    or [read] raises (permissions, a directory, a device error),
    [removable = false] for every reason [os.remove] raises. *)
Record file : Type := File {
  contents : string;
  readable : bool;
  removable : bool
}.

(** What a finished write leaves behind. *)
Definition regular (data : string) : file := File data true true.

(** A directory: it can be neither opened for reading nor [os.remove]d. *)
Definition directory : file := File EmptyString false false.

(** [os.path.exists] *)
Definition path_exists (fs : gmap string file) (p : string) : bool :=
  match fs !! p with Some _ => true | None => false end.

(** [os.path.getsize] of an existing path. *)
Definition getsize (fs : gmap string file) (p : string) : nat :=
  match fs !! p with Some f => String.length (contents f) | None => 0 end.

(** [open(p, 'rb')] then [f.read(n)] *)
Definition read_bytes (fs : gmap string file) (p : string) (n : nat) : exc string :=
  match fs !! p with
  | Some f => if readable f then Ret (String.substring 0 n (contents f)) else Raise
  | None => Raise
  end.

(** [open(p, 'r', encoding='utf-8', errors='ignore')] then [f.read()]; on
    the ASCII text of a header block decoding changes nothing. *)
Definition read_text (fs : gmap string file) (p : string) : exc string :=
  match fs !! p with
  | Some f => if readable f then Ret (contents f) else Raise
  | None => Raise
  end.

(** [os.remove] *)
Definition remove (fs : gmap string file) (p : string) : exc (gmap string file) :=
  match fs !! p with
  | Some f => if removable f then Ret (delete p fs) else Raise
  | None => Raise
  end.

(** [os.path.join(a, b)] of posixpath. *)
Definition path_join (a b : string) : string :=
  match b with
  | String "/" _ => b
  | _ =>
      if is_empty a then b
      else if String.eqb (String.substring (String.length a - 1) 1 a) "/" then a +:+ b
      else a +:+ "/" +:+ b
  end.

End OS.

Import PyStr Re Py OS.

(** ** The world outside the program *)

(** The servers, the [curl] binary, the Python runtime and the operator.
    Answers depend on the request only. *)
Record World : Type := {
  (** [repr] of a list or dict (see [Py.format]). *)
  py_repr : pyval -> string;
  (** [urlopen] on the list URL with the key, then [json.loads]: the decoded
      body, or [Raise] for any network or decoding exception. *)
  list_endpoint : string -> string -> exc pyval;
  (** [curl -s -D file -o /dev/null -H 'X-API-KEY: key' ... url]: the header
      block written to [file]; [None] when no file is written (also when
      [curl] cannot be started). *)
  curl_headers : string -> string -> option string;
  (** [curl -L -s -o file ... [-H 'X-API-KEY: key'] url]: whether the return
      code is 0, and the body written to [file], if any. *)
  curl_download : string -> option string -> bool * option string;
  (** [self.stop_flag] as the worker reads it: the value at its n-th read. *)
  stop_flag : nat -> bool;
  (** Whether [os.makedirs] raises on a path. *)
  makedirs_fails : string -> bool
}.

(** What the worker did, newest first (a history kept for the statements;
    the program has no such list): a list request; an [os.remove] of a
    corrupt target and whether it succeeded; a call of [get_redirect_url];
    a call of [download_final] with its URL, its output path, the key its
    command carries in the X-API-KEY header, whether it returned [True], and
    whether the output path passes [verify_pdf] right after. *)
Inductive event : Type :=
| EvList (url key : string)
| EvRemove (path : string) (removed : bool)
| EvProbe (url : pyval) (key : string)
| EvFetch (url : pyval) (out : string) (key : option string) (rc valid : bool).

(** The worker's variables and the disk. *)
Record state : Type := State {
  fs : gmap string file;
  processed_count : nat;
  success_count : nat;
  reads : nat;            (* reads of [stop_flag] so far *)
  trace : list event
}.

Definition set_fs (d : gmap string file) (st : state) : state :=
  State d (processed_count st) (success_count st) (reads st) (trace st).
Definition log (e : event) (st : state) : state :=
  State (fs st) (processed_count st) (success_count st) (reads st) (e :: trace st).
Definition count_processed (st : state) : state :=
  State (fs st) (S (processed_count st)) (success_count st) (reads st) (trace st).
Definition count_success (st : state) : state :=
  State (fs st) (processed_count st) (S (success_count st)) (reads st) (trace st).

(** [if self.stop_flag:] *)
Definition read_stop (W : World) (st : state) : bool * state :=
  (stop_flag W (reads st),
   State (fs st) (processed_count st) (success_count st) (S (reads st)) (trace st)).

(** How a stretch of the worker ends: normally, or in an uncaught
    exception (which ends the worker thread). *)
Inductive outcome : Type :=
| Done (st : state)
| Crash (st : state).

(** ** Helpers of the class *)

(** [verify_pdf] *)
Definition verify_pdf (d : gmap string file) (filepath : string) : bool :=
  if negb (path_exists d filepath) then false
  else if Nat.ltb (getsize d filepath) 100 then false
  else try_except
         (header ← read_bytes d filepath 4; mret (String.eqb header "%PDF"))
         false.

(** [(.+)\r?$] *)
Definition GROUP_RE : list atom :=
  [GOpen] ++ plus dot ++ [GClose; Opt (is_char CR); Eol].

(** [^[Ll]ocation:\s*(.+)\r?$] *)
Definition LOCATION_RE : list atom :=
  [Bol; One (fun c => Ascii.eqb c "L" || Ascii.eqb c "l")] ++ lit "ocation:"
  ++ Star isspace :: GROUP_RE.

(** The header parsing of [get_redirect_url]: [re.search], then
    [match.group(1).strip()]. *)
Definition parse_location (content : string) : option string :=
  match search_group1 LOCATION_RE content with
  | Some g => Some (strip g)
  | None => None
  end.

(** [get_redirect_url]: the disk afterwards and the value returned. *)
Definition get_redirect_url (W : World) (url : pyval) (api_key temp_header_file : string)
    (d : gmap string file) : exc (gmap string file * option string) :=
  d1 ← (if path_exists d temp_header_file then remove d temp_header_file else Ret d);
  match url with
  | PyStr u =>
      let d2 := match curl_headers W u api_key with
                | Some h => <[temp_header_file := regular h]> d1
                | None => d1
                end in
      if negb (path_exists d2 temp_header_file) then Ret (d2, None)
      else Ret (d2, try_except (content ← read_text d2 temp_header_file;
                                mret (parse_location content)) None)
  | _ => Ret (d1, None)    (* subprocess.run raises TypeError, caught *)
  end.

(** The header [download_final] adds: [if use_key and api_key]. *)
Definition key_header (use_key : bool) (api_key : option string) : option string :=
  match api_key with
  | Some k => if use_key && negb (is_empty k) then Some k else None
  | None => None
  end.

(** [download_final]: the value returned and the disk afterwards. *)
Definition download_final (W : World) (url : pyval) (filepath : string)
    (use_key : bool) (api_key : option string) (d : gmap string file)
    : bool * gmap string file :=
  match url with
  | PyStr u =>
      let '(rc, body) := curl_download W u (key_header use_key api_key) in
      (rc, match body with Some b => <[filepath := regular b]> d | None => d end)
  | _ => (false, d)        (* subprocess.run raises TypeError, caught *)
  end.

(** ** The worker: [run_process] *)

(** Line 224: the application numbers typed by the operator. *)
Definition app_numbers_of (raw_list : string) : list string :=
  map (fun x => replace "," "" (replace "/" "" x))
      (List.filter (fun x => negb (is_empty (strip x)))
         (split (replace "," " " (replace LF " " raw_list)))).

Section Worker.

Variable W : World.
Variable api_key : string.
Variable temp_header_file : string.

Definition fmt : pyval -> string := format (py_repr W).

(** Lines 282-287: the identifier of a document and its file name. *)
Definition doc_filename (app_num : string) (doc : pyval) : exc (pyval * string) :=
  doc_id ← get doc "documentIdentifier" PyNone;
  doc_code ← get doc "documentCode" (PyStr "DOC");
  official_date ← get doc "officialDate" (PyStr "nodate");
  date ← str_method (split_head "T") official_date;
  mret (doc_id,
        app_num +:+ "_" +:+ date +:+ "_" +:+ fmt doc_code +:+ "_" +:+ fmt doc_id +:+ ".pdf").

(** Lines 304-307: the loop over the download options, left at the first
    PDF entry. *)
Fixpoint pdf_option_url (options : list pyval) : exc pyval :=
  match options with
  | [] => Ret PyNone
  | opt :: rest =>
      match get opt "mimeTypeIdentifier" (PyStr "") with
      | Ret mime =>
          match str_method upper mime with
          | Ret up =>
              if String.eqb up "PDF" then get opt "downloadUrl" PyNone
              else pdf_option_url rest
          | Raise => Raise
          end
      | Raise => Raise
      end
  end.

(** Lines 302-311: the URL a document is downloaded from. *)
Definition resolve_url (list_url : string) (doc doc_id : pyval) : exc pyval :=
  options ← get doc "downloadOptionBag" (PyList []);
  opts ← iter options;
  official_url ← pdf_option_url opts;
  if negb (truthy official_url)
  then get doc "downloadUrl" (PyStr (list_url +:+ "/" +:+ fmt doc_id))
  else mret official_url.

(** Lines 322-329 and 334-339: one [download_final] call and the count. *)
Definition download_and_count (url : pyval) (filepath : string) (use_key : bool)
    (key : option string) (st : state) : state :=
  let '(rc, d) := download_final W url filepath use_key key (fs st) in
  let valid := verify_pdf d filepath in
  let st1 := log (EvFetch url filepath (key_header use_key key) rc valid) (set_fs d st) in
  if rc then (if valid then count_success st1 else st1) else st1.

(** Lines 317-339: the redirect probe and the download that follows it. *)
Definition fetch_document (official_url : pyval) (filepath : string) (st : state) : outcome :=
  match get_redirect_url W official_url api_key temp_header_file (fs st) with
  | Raise => Crash st
  | Ret (d1, s3_url) =>
      let st1 := log (EvProbe official_url api_key) (set_fs d1 st) in
      let direct := download_and_count official_url filepath true (Some api_key) st1 in
      match s3_url with
      | Some s3 =>
          if negb (is_empty s3)
          then Done (download_and_count (PyStr s3) filepath false None st1)
          else Done direct
      | None => Done direct
      end
  end.

(** Lines 297-298: [try: os.remove(filepath) except: pass] *)
Definition remove_corrupt (filepath : string) (st : state) : state :=
  match remove (fs st) filepath with
  | Ret d => log (EvRemove filepath true) (set_fs d st)
  | Raise => log (EvRemove filepath false) st
  end.

(** Lines 281-342: the body of the loop over the documents. *)
Definition process_doc (app_num app_folder list_url : string) (doc : pyval)
    (st : state) : outcome :=
  match doc_filename app_num doc with
  | Raise => Crash st
  | Ret (doc_id, filename) =>
      let filepath := path_join app_folder filename in
      if path_exists (fs st) filepath && verify_pdf (fs st) filepath
      then Done st                                       (* continue *)
      else
        let st1 := if path_exists (fs st) filepath
                   then remove_corrupt filepath st else st in
        match resolve_url list_url doc doc_id with
        | Raise => Crash st1
        | Ret official_url => fetch_document official_url filepath st1
        end
  end.

(** Lines 278-342: the loop over the documents of one application. *)
Fixpoint run_docs (app_num app_folder list_url : string) (docs : list pyval)
    (st : state) : outcome :=
  match docs with
  | [] => Done st
  | doc :: rest =>
      let '(stop, st0) := read_stop W st in
      if stop then Done st0                              (* break *)
      else
        match process_doc app_num app_folder list_url doc st0 with
        | Done st1 => run_docs app_num app_folder list_url rest st1
        | Crash st1 => Crash st1
        end
  end.

(** Line 261 *)
Definition list_url_of (app_num : string) : string :=
  "https://api.uspto.gov/api/v1/patent/applications/" +:+ app_num +:+ "/documents".

(** Lines 262-266, the body of the [try]. *)
Definition list_documents (list_url : string) : exc pyval :=
  data ← list_endpoint W list_url api_key;
  if is_list data then mret data else get data "documentBag" (PyList []).

(** Line 256: [if not os.path.exists(app_folder): os.makedirs(app_folder)] *)
Definition ensure_folder (app_folder : string) (d : gmap string file)
    : exc (gmap string file) :=
  if path_exists d app_folder then Ret d
  else if makedirs_fails W app_folder then Raise
  else Ret (<[app_folder := directory]> d).

(** Lines 246-342: the loop over the application numbers. *)
Fixpoint run_apps (root_dir : string) (app_numbers : list string) (st : state) : outcome :=
  match app_numbers with
  | [] => Done st
  | app_num :: rest =>
      let '(stop, st0) := read_stop W st in
      if stop then Done st0                              (* break *)
      else
        let st1 := count_processed st0 in
        let app_folder := path_join root_dir ("App_" +:+ app_num) in
        match ensure_folder app_folder (fs st1) with
        | Raise => Crash st1
        | Ret d =>
            let list_url := list_url_of app_num in
            let st2 := log (EvList list_url api_key) (set_fs d st1) in
            match list_documents list_url with
            | Raise => run_apps root_dir rest st2         (* except: continue *)
            | Ret docs =>
                if negb (truthy docs) then run_apps root_dir rest st2
                else
                  match len docs, iter docs with
                  | Ret _, Ret items =>
                      match run_docs app_num app_folder list_url items st2 with
                      | Done st3 => run_apps root_dir rest st3
                      | Crash st3 => Crash st3
                      end
                  | _, _ => Crash st2
                  end
            end
        end
  end.

End Worker.

(** How [run_process] ends. *)
Inductive run_result : Type :=
| NoApiKey                 (* "Please enter API Key." *)
| NoNumbers                (* "No numbers found." *)
| NoFolder                 (* the folder dialog was cancelled *)
| Finished (st : state)    (* "Finished. Saved n NEW valid files." *)
| Crashed (st : state).    (* an uncaught exception ended the thread *)

Definition initial_state (d : gmap string file) : state := State d 0 0 0 [].

(** Lines 344-352: the scratch file is removed and the count is reported. *)
Definition cleanup (temp_header_file : string) (st : state) : run_result :=
  if path_exists (fs st) temp_header_file
  then match remove (fs st) temp_header_file with
       | Ret d' => Finished (set_fs d' st)
       | Raise => Crashed st
       end
  else Finished st.

(** [run_process]: [entry_key] and [txt_list] are the two input widgets,
    [chosen_dir] is what the folder dialog returns, [d] the disk. *)
Definition run_process (W : World) (entry_key txt_list chosen_dir : string)
    (d : gmap string file) : run_result :=
  let api_key := strip entry_key in
  let raw_list := strip txt_list in
  if is_empty api_key then NoApiKey
  else
    let app_numbers := app_numbers_of raw_list in
    match app_numbers with
    | [] => NoNumbers
    | _ :: _ =>
        let root_dir := chosen_dir in
        if is_empty root_dir then NoFolder
        else
          let temp_header_file := path_join root_dir "temp_headers_debug.txt" in
          match run_apps W api_key temp_header_file root_dir app_numbers (initial_state d) with
          | Crash st => Crashed st
          | Done st => cleanup temp_header_file st
          end
    end.

(** ** Reference definitions for the statements *)

(** *** The [Location] field of a header block, read line by line *)

Module Headers.

(** [s] without the prefix [p], when it has it. *)
Fixpoint strip_prefix (p s : string) : option string :=
  match p with
  | EmptyString => Some s
  | String a p' =>
      match s with
      | String b s' => if Ascii.eqb b a then strip_prefix p' s' else None
      | EmptyString => None
      end
  end.

(** The text after the field name, when a line starts at [s] (the character
    before it being [prev]) with [Location:] or [location:]. *)
Definition field_name_at (prev : option ascii) (s : string) : option string :=
  if at_bol prev then
    match s with
    | String c s' =>
        if Ascii.eqb c "L" || Ascii.eqb c "l" then strip_prefix "ocation:" s' else None
    | EmptyString => None
    end
  else None.

(** The text after the name of the first such field. *)
Fixpoint first_field (prev : option ascii) (s : string) : option string :=
  match field_name_at prev s with
  | Some rest => Some rest
  | None =>
      match s with
      | String c s' => first_field (Some c) s'
      | EmptyString => None
      end
  end.

(** Some character of [s] is not a line feed. *)
Fixpoint has_text (s : string) : bool :=
  match s with
  | EmptyString => false
  | String c s' => dot c || has_text s'
  end.

(** The value read after a field name: white space is skipped, line ends
    included; what follows, up to the end of its line, is trimmed.  When
    only white space follows the name the value is empty, and there is no
    value at all when nothing but line feeds follows. *)
Definition field_value (rest : string) : option string :=
  let r := lstrip rest in
  if negb (is_empty r) then Some (strip (split_head LF r))
  else if has_text rest then Some EmptyString
  else None.


(** The result of a match as [get_redirect_url] returns it. *)
Definition value_of (o : option group) : option string :=
  match o with
  | Some (GDone t) => Some (strip t)
  | Some _ => Some (strip EmptyString)
  | None => None
  end.

End Headers.

(** *** The download URL of a document record *)

Module Resolve.

(** The value under key [k] of an entry, as [opt.get(k)] gives it. *)
Definition entry (opt : pyval) (k : string) : pyval :=
  match opt with
  | PyDict kv => match assoc k kv with Some v => v | None => PyNone end
  | _ => PyNone
  end.

(** An entry whose [mimeTypeIdentifier] is "PDF" in any capitalisation. *)
Definition is_pdf_option (opt : pyval) : bool :=
  match entry opt "mimeTypeIdentifier" with
  | PyStr m => String.eqb (upper m) "PDF"
  | _ => false
  end.

(** The entries of [downloadOptionBag]. *)
Definition option_bag (doc : list (string * pyval)) : list pyval :=
  match assoc "downloadOptionBag" doc with
  | Some (PyList l) => l
  | _ => []
  end.

(** The top-level [downloadUrl], or else [<listUrl>/<documentIdentifier>]. *)
Definition top_level_url (repr : pyval -> string) (list_url : string)
    (doc : list (string * pyval)) (doc_id : pyval) : pyval :=
  match assoc "downloadUrl" doc with
  | Some u => u
  | None => PyStr (list_url +:+ "/" +:+ format repr doc_id)
  end.

(** The preference order in the words of the specification: the
    [downloadUrl] of the first PDF entry; otherwise the top-level
    [downloadUrl]; otherwise the fallback. *)
Definition specified_url (repr : pyval -> string) (list_url : string)
    (doc : list (string * pyval)) (doc_id : pyval) : pyval :=
  match List.find is_pdf_option (option_bag doc) with
  | Some opt => entry opt "downloadUrl"
  | None => top_level_url repr list_url doc doc_id
  end.

(** The preference order of the program: the first PDF entry counts only
    when its [downloadUrl] is a true value (present and not empty). *)
Definition preferred_url (repr : pyval -> string) (list_url : string)
    (doc : list (string * pyval)) (doc_id : pyval) : pyval :=
  match List.find is_pdf_option (option_bag doc) with
  | Some opt =>
      if truthy (entry opt "downloadUrl") then entry opt "downloadUrl"
      else top_level_url repr list_url doc doc_id
  | None => top_level_url repr list_url doc doc_id
  end.

(** An entry the loop of lines 304-307 can look at without an exception: a
    dict whose [mimeTypeIdentifier], when present, is a string. *)
Definition option_ok (opt : pyval) : bool :=
  match opt with
  | PyDict kv =>
      match assoc "mimeTypeIdentifier" kv with
      | None | Some (PyStr _) => true
      | Some _ => false
      end
  | _ => false
  end.

(** [downloadOptionBag] is absent or a list of such entries. *)
Definition bag_ok (doc : list (string * pyval)) : bool :=
  match assoc "downloadOptionBag" doc with
  | None => true
  | Some (PyList l) => forallb option_ok l
  | Some _ => false
  end.

End Resolve.

(** *** The download that follows a probe *)

Module Strategy.

(** The redirect target a header block carries, as the resolver reads it
    for a given URL. *)
Definition redirect_of (W : World) (url : pyval) (api_key : string) : option string :=
  match url with
  | PyStr u =>
      match curl_headers W u api_key with
      | Some h => parse_location h
      | None => None
      end
  | _ => None
  end.



End Strategy.

(** *** Counting the downloads of a run *)

Module Count.

(** A download whose command returned 0 and whose file then passed
    [verify_pdf]. *)
Definition saved (e : event) : bool :=
  match e with
  | EvFetch _ _ _ rc valid => rc && valid
  | _ => false
  end.

Definition saved_count (t : list event) : nat := length (List.filter saved t).

Definition is_fetch (e : event) : bool :=
  match e with EvFetch _ _ _ _ _ => true | _ => false end.

(** The number of [download_final] calls in a trace. *)
Definition downloads (t : list event) : nat := length (List.filter is_fetch t).

Definition state_of (o : outcome) : state :=
  match o with Done st => st | Crash st => st end.

(** The invariant of the worker's loops: the counter is the number of
    such downloads so far. *)
Definition counted (st : state) : Prop :=
  success_count st = saved_count (trace st).

End Count.

(** *** Cancellation *)

Module Cancel.


(** Nothing was listed, probed, downloaded, removed or counted between two
    states; only reads of the flag lie between them. *)
Definition untouched (st st' : state) : Prop :=
  fs st' = fs st /\ trace st' = trace st /\
  success_count st' = success_count st /\
  processed_count st' = processed_count st /\
  reads st <= reads st'.

End Cancel.

(** *** A destination that is already complete *)

Module Rerun.

(** The target file of a document is on the disk [d] and passes
    [verify_pdf]. *)
Definition target_valid (W : World) (app_num app_folder : string)
    (d : gmap string file) (doc : pyval) : Prop :=
  exists doc_id filename,
    doc_filename W app_num doc = Ret (doc_id, filename) /\
    verify_pdf d (path_join app_folder filename) = true.

(** The folder of an application exists and every document its list
    request returns has a valid target file (a list request that fails or
    returns no documents asks for nothing). *)
Definition app_settled (W : World) (api_key root_dir : string)
    (d : gmap string file) (app_num : string) : Prop :=
  path_exists d (path_join root_dir ("App_" +:+ app_num)) = true /\
  match list_documents W api_key (list_url_of app_num) with
  | Raise => True
  | Ret docs =>
      truthy docs = false \/
      exists items,
        docs = PyList items /\
        Forall (target_valid W app_num (path_join root_dir ("App_" +:+ app_num)) d) items
  end.

(** The disk a run leaves behind. *)
Definition disk_after (r : run_result) : gmap string file :=
  match r with
  | Finished st | Crashed st => fs st
  | _ => ∅
  end.

End Rerun.

(** *** The state after the list request of an application *)

(** The flag was read, the application counted, its folder is on the disk
    [d] and the list request was sent. *)
Definition listed (W : World) (api_key app_num : string) (d : gmap string file)
    (st : state) : state :=
  log (EvList (list_url_of app_num) api_key)
      (set_fs d (count_processed (snd (read_stop W st)))).

(** *** Records and worlds on which nothing raises *)

Module Robust.
Import Resolve.

(** A document record lines 282-311 can read without an exception: a dict
    whose [officialDate], when present, is a string and whose
    [downloadOptionBag] is absent or a list of entries with string MIME
    types. *)
Definition doc_ok (doc : pyval) : bool :=
  match doc with
  | PyDict kv =>
      match assoc "officialDate" kv with
      | None | Some (PyStr _) => true
      | Some _ => false
      end && bag_ok kv
  | _ => false
  end.

(** What the list request gives for [docs]: nothing, or a list of such
    records. *)
Definition docs_ok (docs : pyval) : bool :=
  negb (truthy docs) ||
  match docs with
  | PyList items => forallb doc_ok items
  | _ => false
  end.

(** Every list request fails or gives such documents. *)
Definition listing_ok (W : World) (api_key : string) : Prop :=
  forall list_url,
    match list_documents W api_key list_url with
    | Raise => True
    | Ret docs => docs_ok docs = true
    end.

(** The scratch header file is absent or can be removed. *)
Definition scratch_ok (temp_header_file : string) (d : gmap string file) : Prop :=
  match d !! temp_header_file with
  | Some f => removable f = true
  | None => True
  end.

End Robust.

(** *** Characters of a string *)

(** Every character of [s] satisfies [p]. *)
Fixpoint all_chars (p : ascii -> bool) (s : string) : bool :=
  match s with
  | EmptyString => true
  | String c s' => p c && all_chars p s'
  end.

(** Neither white space nor a comma. *)
Definition token_char (c : ascii) : bool :=
  negb (isspace c) && negb (Ascii.eqb c ",").

(** ** Example worlds and records *)

Module Examples.

(** The document of the end-to-end scenario of the specification. *)
Definition doc_D1 : pyval :=
  PyDict [("documentIdentifier", PyStr "D1"); ("documentCode", PyStr "SPEC");
          ("officialDate", PyStr "2023-05-01T00:00:00Z");
          ("downloadOptionBag",
           PyList [PyDict [("mimeTypeIdentifier", PyStr "PDF");
                           ("downloadUrl", PyStr "https://api.example/doc1")]])].

(** A document without date, code and option bag. *)
Definition doc_D3 : pyval :=
  PyDict [("documentIdentifier", PyStr "D3");
          ("downloadUrl", PyStr "https://api.example/doc3")].


(** A record whose only PDF entry has an empty [downloadUrl], and a record
    whose top-level [downloadUrl] is empty. *)
Definition doc_pdf_without_url : list (string * pyval) :=
  [("documentIdentifier", PyStr "D1");
   ("downloadOptionBag",
    PyList [PyDict [("mimeTypeIdentifier", PyStr "PDF"); ("downloadUrl", PyStr "")]]);
   ("downloadUrl", PyStr "https://api.example/top/D1")].

Definition doc_empty_top_level : list (string * pyval) :=
  [("documentIdentifier", PyStr "D2"); ("downloadUrl", PyStr "")].

(** A record with [officialDate: null]. *)
Definition doc_null_date : pyval :=
  PyDict [("documentIdentifier", PyStr "D0"); ("officialDate", PyNone)].

(** A PDF of 128 bytes. *)
Definition pdf_body : string :=
  "%PDF-1.4 " +:+ String.concat "" (repeat "0123456789abcdef " 7).

(** The first document URL redirects to object storage, where the PDF is
    served without the key; the second answers with a Location field
    without a value and its download fails; the third does not redirect and
    serves an HTML page to the key. *)
Definition example_world (listing : string -> exc pyval) (stop : nat -> bool) : World := {|
  py_repr := fun _ => "?";
  list_endpoint := fun url _ => listing url;
  curl_headers := fun u _ =>
    if String.eqb u "https://api.example/doc1"
    then Some ("HTTP/1.1 302 Found" +:+ CRLF
               +:+ "Location: https://s3.example/doc1.pdf" +:+ CRLF +:+ CRLF)
    else if String.eqb u "https://api.example/doc2"
    then Some ("HTTP/1.1 302 Found" +:+ CRLF +:+ "Location: " +:+ CRLF +:+ CRLF)
    else None;
  curl_download := fun u key =>
    match key with
    | None =>
        if String.eqb u "https://s3.example/doc1.pdf" then (true, Some pdf_body)
        else (false, None)
    | Some _ =>
        if String.eqb u "https://api.example/doc3"
        then (true, Some "<html>Forbidden</html>")
        else (false, None)
    end;
  stop_flag := stop;
  makedirs_fails := fun _ => false
|}.

(** The list endpoint knows one application, with the documents [docs]. *)
Definition one_application (docs : list pyval) (url : string) : exc pyval :=
  if String.eqb url (list_url_of "17123456")
  then Ret (PyDict [("count", PyInt 2); ("documentBag", PyList docs)])
  else Raise.

(** Every application has the one document [doc_D1]. *)
Definition every_application (url : string) : exc pyval := Ret (PyList [doc_D1]).

(** No list request succeeds. *)
Definition redirecting_world : World :=
  example_world (fun _ => Raise) (fun _ => false).

Definition one_document_world : World :=
  example_world (one_application [doc_D1]) (fun _ => false).

Definition two_documents_world : World :=
  example_world (one_application [doc_D1; doc_D3]) (fun _ => false).


Definition null_date_world : World :=
  example_world (one_application [doc_null_date; doc_D1]) (fun _ => false).

(** The operator presses Stop while the document of the second of three
    applications is being downloaded: the flag is set from its fifth read
    on. *)
Definition stopped_world : World :=
  example_world every_application (fun n => Nat.leb 4 n).

End Examples.

(** ** Reference definitions for the further properties *)

Module More.

(** A character an application number can hold: no white space, comma or
    slash. *)
Definition app_char (c : ascii) : bool :=
  negb (isspace c) && negb (Ascii.eqb c ",") && negb (Ascii.eqb c "/").

(** White space or a comma. *)
Definition separator (c : ascii) : bool := isspace c || Ascii.eqb c ",".

(** The URLs of the list requests of a trace, oldest first. *)
Fixpoint list_requests (t : list event) : list string :=
  match t with
  | [] => []
  | EvList url _ :: t' => list_requests t' ++ [url]
  | _ :: t' => list_requests t'
  end.

(** The end of a header line: CR LF as a server sends it and [curl -D]
    writes it, or LF alone. *)
Definition line_end (crlf : bool) : string :=
  if crlf then CRLF else String LF EmptyString.

(** What is left of a line end on the line of the value. *)
Definition line_end_rest (crlf : bool) : string :=
  if crlf then String CR EmptyString else EmptyString.

(** A header block: its lines, each with its line end. *)
Fixpoint header_block (crlf : bool) (lines : list string) : string :=
  match lines with
  | [] => EmptyString
  | l :: ls => l +:+ line_end crlf +:+ header_block crlf ls
  end.


(** The output paths of the downloads a trace counts as saved, newest
    first. *)
Fixpoint saved_paths (t : list event) : list string :=
  match t with
  | [] => []
  | EvFetch _ out _ rc valid :: t' =>
      if rc && valid then out :: saved_paths t' else saved_paths t'
  | _ :: t' => saved_paths t'
  end.

(** The last character of a string. *)
Fixpoint last_char (s : string) : option ascii :=
  match s with
  | EmptyString => None
  | String c s' =>
      match last_char s' with
      | None => Some c
      | Some l => Some l
      end
  end.

(** The invariant of the worker's loops on the saved files: their paths
    are pairwise distinct and end in [f] (of [.pdf]), and each is on the
    disk and passes [verify_pdf]. *)
Definition on_disk (st : state) : Prop :=
  List.NoDup (saved_paths (trace st)) /\
  Forall (fun p => last_char p = Some "f"%char /\ verify_pdf (fs st) p = true)
         (saved_paths (trace st)).

(** A list response in its object form: the documents of a bare array
    under [documentBag], after other fields. *)
Definition in_bag (others : list (string * pyval)) (data : pyval) : pyval :=
  match data with
  | PyList l => PyDict (others ++ [("documentBag", PyList l)])
  | v => v
  end.

(** The world whose list endpoint answers in the object form wherever that
    of [W] answers with a bare array. *)
Definition answering_in_bag (others : list (string * pyval)) (W : World) : World :=
  {| py_repr := py_repr W;
     list_endpoint := fun url key =>
       match list_endpoint W url key with
       | Ret data => Ret (in_bag others data)
       | Raise => Raise
       end;
     curl_headers := curl_headers W;
     curl_download := curl_download W;
     stop_flag := stop_flag W;
     makedirs_fails := makedirs_fails W |}.

(** What a call of [get_redirect_url] that returns leaves at the scratch
    path: the header block [curl] wrote, if it wrote one. *)
Definition scratch_after (W : World) (url : pyval) (api_key : string) : option file :=
  match url with
  | PyStr u => option_map regular (curl_headers W u api_key)
  | _ => None
  end.

(** A disk on which an earlier call left a header block. *)
Definition stale_scratch_disk : gmap string file :=
  {[ "/out/temp_headers_debug.txt" :=
       regular ("HTTP/1.1 302 Found" +:+ CRLF
                +:+ "Location: https://s3.example/old.pdf" +:+ CRLF) ]}.

(** What [os.path.join] puts before the second part. *)
Definition join_prefix (a : string) : string :=
  if is_empty a then EmptyString
  else if String.eqb (String.substring (String.length a - 1) 1 a) "/" then a
       else a +:+ "/".

End More.

(** * Properties *)

Import Headers Resolve Strategy Count Cancel Rerun Robust Examples More.

(** ** The loops, one iteration at a time *)

Lemma run_docs_cons W api_key temp app_num app_folder list_url doc rest st :
  run_docs W api_key temp app_num app_folder list_url (doc :: rest) st =
  if stop_flag W (reads st) then Done (snd (read_stop W st))
  else
    match process_doc W api_key temp app_num app_folder list_url doc
            (snd (read_stop W st)) with
    | Done st1 => run_docs W api_key temp app_num app_folder list_url rest st1
    | Crash st1 => Crash st1
    end.
Proof. reflexivity. Qed.

Lemma run_apps_cons W api_key temp root_dir app_num rest st :
  run_apps W api_key temp root_dir (app_num :: rest) st =
  if stop_flag W (reads st) then Done (snd (read_stop W st))
  else
    match ensure_folder W (path_join root_dir ("App_" +:+ app_num)) (fs st) with
    | Raise => Crash (count_processed (snd (read_stop W st)))
    | Ret d =>
        match list_documents W api_key (list_url_of app_num) with
        | Raise => run_apps W api_key temp root_dir rest (listed W api_key app_num d st)
        | Ret docs =>
            if negb (truthy docs)
            then run_apps W api_key temp root_dir rest (listed W api_key app_num d st)
            else
              match len docs, iter docs with
              | Ret _, Ret items =>
                  match run_docs W api_key temp app_num
                          (path_join root_dir ("App_" +:+ app_num))
                          (list_url_of app_num) items
                          (listed W api_key app_num d st) with
                  | Done st3 => run_apps W api_key temp root_dir rest st3
                  | Crash st3 => Crash st3
                  end
              | _, _ => Crash (listed W api_key app_num d st)
              end
        end
    end.
Proof. reflexivity. Qed.

(** ** Normalisation of the operator's input (C6) *)

Lemma all_chars_snoc p cur c :
  all_chars p (cur +:+ String c EmptyString) = all_chars p cur && p c.
Proof.
  induction cur as [|x cur IH]; simpl.
  - change (EmptyString +:+ String c EmptyString) with (String c EmptyString).
    simpl. now rewrite andb_true_r.
  - change (String x cur +:+ String c EmptyString)
      with (String x (cur +:+ String c EmptyString)).
    simpl. rewrite IH. now rewrite andb_assoc.
Qed.

Lemma is_empty_snoc cur c : is_empty (cur +:+ String c EmptyString) = false.
Proof. destruct cur; reflexivity. Qed.

(** The tokens of [split] hold no white space, and no comma when the text
    holds none outside white space. *)
Lemma split_from_tokens s : forall cur,
  all_chars token_char cur = true ->
  all_chars (fun c => isspace c || token_char c) s = true ->
  Forall (fun t => all_chars token_char t = true /\ is_empty t = false)
         (split_from cur s).
Proof.
  induction s as [|c s IH]; intros cur Hcur Hs; simpl.
  - destruct (is_empty cur) eqn:E; constructor; [now split | constructor].
  - simpl in Hs. apply andb_true_iff in Hs as [Hc Hs].
    destruct (isspace c) eqn:Hsp.
    + destruct (is_empty cur) eqn:E.
      * now apply IH.
      * constructor; [now split | now apply IH].
    + apply IH; [|exact Hs]. rewrite all_chars_snoc, Hcur. exact Hc.
Qed.

Lemma replace_comma_by_space s :
  all_chars (fun c => isspace c || token_char c) (replace "," " " s) = true.
Proof.
  induction s as [|c s IH]; [reflexivity|]. simpl.
  destruct (Ascii.eqb c ",") eqn:E.
  - change (" " +:+ replace "," " " s) with (String " " (replace "," " " s)).
    simpl. exact IH.
  - simpl. rewrite IH, andb_true_r. unfold token_char. rewrite E.
    now destruct (isspace c).
Qed.

Lemma rstrip_no_space t :
  all_chars (fun c => negb (isspace c)) t = true -> rstrip t = t.
Proof.
  induction t as [|c t IH]; [reflexivity|]. simpl.
  intros [Hc Ht]%andb_true_iff. apply negb_true_iff in Hc.
  rewrite Hc. simpl. now rewrite IH.
Qed.

Lemma all_chars_weaken (p q : ascii -> bool) t :
  (forall c, p c = true -> q c = true) ->
  all_chars p t = true -> all_chars q t = true.
Proof.
  intros Hpq. induction t as [|c t IH]; [reflexivity|]. simpl.
  intros [Hc Ht]%andb_true_iff. now rewrite (Hpq c Hc), IH.
Qed.

Lemma strip_token t :
  all_chars token_char t = true -> strip t = t.
Proof.
  intros Ht.
  assert (all_chars (fun c => negb (isspace c)) t = true) as Hn.
  { apply (all_chars_weaken token_char); [|exact Ht].
    intros c H. unfold token_char in H. now apply andb_true_iff in H as [H _]. }
  unfold strip. destruct t as [|c t]; [reflexivity|].
  simpl lstrip. simpl in Hn. apply andb_true_iff in Hn as [Hc Hn'].
  apply negb_true_iff in Hc. rewrite Hc.
  apply rstrip_no_space. simpl. now rewrite Hc, Hn'.
Qed.

Lemma replace_slash_token t :
  all_chars token_char t = true ->
  all_chars token_char (replace "/" "" t) = true.
Proof.
  induction t as [|c t IH]; [reflexivity|]. simpl.
  intros [Hc Ht]%andb_true_iff.
  destruct (Ascii.eqb c "/").
  - change ("" +:+ replace "/" "" t) with (replace "/" "" t). now apply IH.
  - simpl. now rewrite Hc, IH.
Qed.

(** Removing the commas of a text without commas changes nothing. *)
Lemma replace_comma_token t :
  all_chars token_char t = true -> replace "," "" t = t.
Proof.
  induction t as [|c t IH]; [reflexivity|]. simpl.
  intros [Hc Ht]%andb_true_iff. unfold token_char in Hc.
  apply andb_true_iff in Hc as [_ Hc]. apply negb_true_iff in Hc.
  rewrite Hc. now rewrite IH.
Qed.

Lemma app_numbers_of_tokens (tokens : list string) :
  Forall (fun t => all_chars token_char t = true /\ is_empty t = false) tokens ->
  map (fun x => replace "," "" (replace "/" "" x))
      (List.filter (fun x => negb (is_empty (strip x))) tokens)
  = map (replace "/" "") tokens.
Proof.
  induction 1 as [|t tokens [Ht He] _ IH]; [reflexivity|].
  simpl. rewrite (strip_token t Ht), He. simpl.
  rewrite IH. f_equal. apply replace_comma_token. now apply replace_slash_token.
Qed.

(** C6. On the input "17/123,456" line 224 yields two application numbers,
    "17123" and "456", not the single number "17123456".  On every input the
    commas are turned into separators before the split, so the removal of
    commas from each identifier never finds one: the result is the split
    text with the slashes removed. *)
Theorem app_numbers_of_slash_comma :
  app_numbers_of "17/123,456" = ["17123"; "456"] /\
  forall raw_list,
    app_numbers_of raw_list
    = map (replace "/" "") (split (replace "," " " (replace LF " " raw_list))).
Proof.
  split; [reflexivity|].
  intros raw_list. unfold app_numbers_of. apply app_numbers_of_tokens.
  apply split_from_tokens; [reflexivity | apply replace_comma_by_space].
Qed.

(** ** The PDF validator (C2) *)

Lemma verify_pdf_unfold (d : gmap string file) (p : string) :
  verify_pdf d p =
  match d !! p with
  | None => false
  | Some f =>
      negb (Nat.ltb (String.length (contents f)) 100)
      && readable f
      && String.eqb (String.substring 0 4 (contents f)) "%PDF"
  end.
Proof.
  unfold verify_pdf, path_exists, getsize, read_bytes.
  destruct (d !! p) as [f|]; simpl; [|reflexivity].
  destruct (Nat.ltb _ 100); simpl; [reflexivity|].
  destruct (readable f); reflexivity.
Qed.

(** C2. [verify_pdf] answers [false] for a missing path, for a file shorter
    than 100 bytes whatever it holds, for a file whose first four bytes are
    not %PDF, and when reading raises; it answers [true] for a readable file
    of at least 100 bytes that starts with %PDF.  The result is a boolean in
    every case: no exception leaves the function. *)
Theorem verify_pdf_validator (d : gmap string file) (p : string) :
  (d !! p = None -> verify_pdf d p = false) /\
  (forall f, d !! p = Some f -> String.length (contents f) < 100 ->
             verify_pdf d p = false) /\
  (forall f, d !! p = Some f -> String.substring 0 4 (contents f) <> "%PDF" ->
             verify_pdf d p = false) /\
  (read_bytes d p 4 = Raise -> verify_pdf d p = false) /\
  (forall f, d !! p = Some f -> 100 <= String.length (contents f) ->
             read_bytes d p 4 = Ret "%PDF" -> verify_pdf d p = true).
Proof.
  rewrite verify_pdf_unfold. unfold read_bytes.
  repeat split.
  - intros ->. reflexivity.
  - intros f -> Hlen. apply Nat.ltb_lt in Hlen. rewrite Hlen. reflexivity.
  - intros f -> Hne. apply String.eqb_neq in Hne. rewrite Hne.
    apply andb_false_r.
  - destruct (d !! p) as [f|]; [|reflexivity].
    destruct (readable f); [discriminate|]. intros _.
    rewrite andb_false_r. reflexivity.
  - intros f -> Hlen. destruct (readable f); [|discriminate].
    intros [= ->]. apply Nat.ltb_ge in Hlen. rewrite Hlen. reflexivity.
Qed.

Lemma verify_pdf_validator_witness :
  verify_pdf {[ "a.pdf" := regular "%PDF" ]} "a.pdf" = false /\
  verify_pdf {[ "a.pdf" := regular "%PDF" ]} "b.pdf" = false /\
  verify_pdf {[ "a.pdf" := regular pdf_body ]} "a.pdf" = true.
Proof.
  pose proof (verify_pdf_validator {[ "a.pdf" := regular "%PDF" ]} "a.pdf")
    as (_ & Hshort & _).
  pose proof (verify_pdf_validator {[ "a.pdf" := regular "%PDF" ]} "b.pdf")
    as (Hmissing & _).
  pose proof (verify_pdf_validator {[ "a.pdf" := regular pdf_body ]} "a.pdf")
    as (_ & _ & _ & _ & Hpdf).
  split; [|split].
  - apply (Hshort (regular "%PDF")); [reflexivity | simpl; lia].
  - apply Hmissing. reflexivity.
  - apply (Hpdf (regular pdf_body)); [reflexivity | vm_compute; lia | reflexivity].
Defined.

(** ** The redirect resolver's header parsing (C8) *)

Lemma rmatch_star_cons p pat prev c s g :
  rmatch (Star p :: pat) prev (String c s) g =
  if p c then
    match rmatch (Star p :: pat) (Some c) s (push c g) with
    | Some r => Some r
    | None => rmatch pat prev (String c s) g
    end
  else rmatch pat prev (String c s) g.
Proof. reflexivity. Qed.

Lemma rmatch_star_nil p pat prev g :
  rmatch (Star p :: pat) prev EmptyString g = rmatch pat prev EmptyString g.
Proof. reflexivity. Qed.

Lemma append_nil_l (b : string) : EmptyString +:+ b = b.
Proof. reflexivity. Qed.

Lemma append_cons (c : ascii) (a b : string) : String c a +:+ b = String c (a +:+ b).
Proof. reflexivity. Qed.

Lemma append_snoc (a : string) (c : ascii) (b : string) :
  (a +:+ String c EmptyString) +:+ b = a +:+ String c b.
Proof.
  induction a as [|x a IH]; [reflexivity|].
  rewrite !append_cons. now rewrite IH.
Qed.

Lemma append_empty_r (a : string) : a +:+ EmptyString = a.
Proof.
  induction a as [|x a IH]; [reflexivity|].
  rewrite append_cons. now rewrite IH.
Qed.

(** The greedy [.*] that ends group 1 runs to the end of the line, and the
    rest of the pattern, [\r?$], then matches without taking a character. *)
Lemma rmatch_rest_of_line s : forall prev acc,
  rmatch [Star dot; GClose; Opt (is_char CR); Eol] prev s (GIn acc)
  = Some (GDone (acc +:+ split_head LF s)).
Proof.
  induction s as [|c s IH]; intros prev acc.
  - rewrite rmatch_star_nil. simpl. now rewrite append_empty_r.
  - rewrite rmatch_star_cons.
    destruct (dot c) eqn:E; unfold dot in E.
    + apply negb_true_iff in E. simpl push. rewrite IH. simpl split_head.
      rewrite E. now rewrite append_snoc.
    + apply negb_false_iff, Ascii.eqb_eq in E. subst c. simpl.
      now rewrite append_empty_r.
Qed.

(** Group 1 and what follows it, at a given position. *)
Lemma rmatch_group s prev g :
  rmatch GROUP_RE prev s g
  = match s with
    | String c _ => if dot c then Some (GDone (split_head LF s)) else None
    | EmptyString => None
    end.
Proof.
  destruct s as [|c s]; [reflexivity|].
  change (rmatch GROUP_RE prev (String c s) g)
    with (if dot c
          then rmatch [Star dot; GClose; Opt (is_char CR); Eol] (Some c) s
                 (GIn (String c EmptyString))
          else None).
  destruct (dot c) eqn:E; [|reflexivity].
  rewrite rmatch_rest_of_line. simpl.
  unfold dot in E. apply negb_true_iff in E. now rewrite E.
Qed.

Lemma isspace_not_dot c : isspace c = false -> dot c = true.
Proof.
  intros H. unfold dot. destruct (Ascii.eqb c LF) eqn:E; [|reflexivity].
  apply Ascii.eqb_eq in E. subst c. discriminate H.
Qed.

Lemma lstrip_split_head s :
  lstrip s = EmptyString -> lstrip (split_head LF s) = EmptyString.
Proof.
  induction s as [|c s IH]; [reflexivity|]. simpl.
  destruct (isspace c) eqn:Hc; [|discriminate].
  intros H. destruct (Ascii.eqb c LF); [reflexivity|].
  simpl. rewrite Hc. now apply IH.
Qed.

Lemma field_value_space c s v :
  isspace c = true -> field_value s = Some v -> field_value (String c s) = Some v.
Proof.
  unfold field_value. simpl lstrip. intros ->.
  destruct (is_empty (lstrip s)); simpl negb; cbv iota; [|trivial].
  simpl has_text. destruct (has_text s); [|discriminate].
  now rewrite orb_true_r.
Qed.

Lemma field_value_none s :
  field_value s = None -> lstrip s = EmptyString /\ has_text s = false.
Proof.
  unfold field_value. destruct (lstrip s); simpl; [|discriminate].
  destruct (has_text s); [discriminate|]. now split.
Qed.

Lemma field_value_blank c s :
  isspace c = true -> field_value s = None ->
  field_value (String c s) = if dot c then Some EmptyString else None.
Proof.
  intros Hc [Hl Ht]%field_value_none. unfold field_value. simpl lstrip.
  rewrite Hc, Hl. simpl. rewrite Ht. now rewrite orb_false_r.
Qed.

(** What the part of the pattern after the field name, [\s*(.+)\r?$],
    finds: the greedy [\s*] gives back white space until a character that
    is no line feed can start the group. *)
Lemma rmatch_value s : forall prev,
  value_of (rmatch (Star isspace :: GROUP_RE) prev s GNone) = field_value s.
Proof.
  induction s as [|c s IH]; intros prev; [reflexivity|].
  rewrite rmatch_star_cons. destruct (isspace c) eqn:Hc.
  - simpl push. specialize (IH (Some c)).
    destruct (rmatch (Star isspace :: GROUP_RE) (Some c) s GNone) as [r|].
    + symmetry. destruct r as [|t|t]; simpl value_of in *;
        now apply field_value_space.
    + simpl value_of in IH. symmetry in IH.
      rewrite rmatch_group, (field_value_blank c s Hc IH).
      destruct (dot c); [|reflexivity]. simpl value_of. unfold strip.
      apply field_value_none in IH as [Hl _].
      pose proof (lstrip_split_head (String c s)) as H. simpl lstrip in H at 1.
      rewrite Hc in H. simpl split_head in H. rewrite (H Hl). reflexivity.
  - rewrite rmatch_group, (isspace_not_dot c Hc). unfold field_value.
    simpl. rewrite Hc. reflexivity.
Qed.

Lemma strip_prefix_app p : forall s rest,
  strip_prefix p s = Some rest -> s = p +:+ rest.
Proof.
  induction p as [|a p IH]; intros s rest; simpl.
  - now intros [= ->].
  - destruct s as [|b s]; [discriminate|].
    destruct (Ascii.eqb b a) eqn:E; [|discriminate].
    apply Ascii.eqb_eq in E. subst b. intros H.
    rewrite append_cons. f_equal. now apply IH.
Qed.

(** A literal prefix of the pattern is read off the text. *)
Lemma rmatch_lit p pat : forall prev s,
  rmatch (lit p ++ pat) prev s GNone =
  match strip_prefix p s with
  | Some rest =>
      rmatch pat (fold_left (fun _ c => Some c) (list_ascii_of_string p) prev) rest GNone
  | None => None
  end.
Proof.
  induction p as [|a p IH]; intros prev s; [reflexivity|].
  destruct s as [|b s]; [reflexivity|].
  change (rmatch (lit (String a p) ++ pat) prev (String b s) GNone)
    with (if Ascii.eqb b a then rmatch (lit p ++ pat) (Some b) s GNone else None).
  simpl strip_prefix. destruct (Ascii.eqb b a) eqn:E; [|reflexivity].
  apply Ascii.eqb_eq in E. subst b. apply IH.
Qed.

(** The pattern matches at a position exactly when a line starts there
    with the field name; the value is then read by [\s*(.+)\r?$]. *)
Lemma rmatch_location prev s :
  rmatch LOCATION_RE prev s GNone =
  match field_name_at prev s with
  | Some rest => rmatch (Star isspace :: GROUP_RE) (Some ":"%char) rest GNone
  | None => None
  end.
Proof.
  unfold field_name_at.
  change (rmatch LOCATION_RE prev s GNone)
    with (if at_bol prev then
            match s with
            | String c s' =>
                if Ascii.eqb c "L" || Ascii.eqb c "l"
                then rmatch (lit "ocation:" ++ Star isspace :: GROUP_RE) (Some c) s' GNone
                else None
            | EmptyString => None
            end
          else None).
  destruct (at_bol prev); [|reflexivity].
  destruct s as [|c s]; [reflexivity|].
  destruct (Ascii.eqb c "L" || Ascii.eqb c "l"); [|reflexivity].
  rewrite rmatch_lit. reflexivity.
Qed.

(** Nothing but line feeds holds no field. *)
Lemma first_field_no_text s : forall prev,
  has_text s = false -> first_field prev s = None.
Proof.
  induction s as [|c s IH]; intros prev; simpl has_text.
  - intros _. simpl. unfold field_name_at. now destruct (at_bol prev).
  - intros [Hc Hs]%orb_false_iff. unfold dot in Hc.
    apply negb_false_iff, Ascii.eqb_eq in Hc. subst c.
    simpl. unfold field_name_at. simpl. rewrite (IH _ Hs).
    now destruct (at_bol prev).
Qed.

(** After a field name that no value follows, no later position holds a
    field either. *)
Lemma first_field_after_name c rest :
  Ascii.eqb c "L" || Ascii.eqb c "l" = true ->
  has_text rest = false ->
  first_field (Some c) ("ocation:" +:+ rest) = None.
Proof.
  intros Hc Ht.
  assert (at_bol (Some c) = false) as Hb.
  { simpl. apply orb_true_iff in Hc as [E|E]; apply Ascii.eqb_eq in E; now subst c. }
  simpl. unfold field_name_at at 1. rewrite Hb.
  apply (first_field_no_text rest (Some ":"%char) Ht).
Qed.

Lemma search_from_unfold pat prev s :
  search_from pat prev s =
  match rmatch pat prev s GNone with
  | Some g => Some g
  | None =>
      match s with
      | String c s' => search_from pat (Some c) s'
      | EmptyString => None
      end
  end.
Proof. destruct s; reflexivity. Qed.

(** [re.search] with the pattern of [get_redirect_url] finds the first
    field and reads its value. *)
Lemma search_location s : forall prev,
  value_of (search_from LOCATION_RE prev s) =
  match first_field prev s with
  | Some rest => field_value rest
  | None => None
  end.
Proof.
  induction s as [|c s IH]; intros prev.
  - rewrite search_from_unfold, rmatch_location. simpl first_field.
    destruct (field_name_at prev EmptyString) as [rest|] eqn:E; [|reflexivity].
    unfold field_name_at in E. now destruct (at_bol prev).
  - rewrite search_from_unfold, rmatch_location. simpl first_field.
    destruct (field_name_at prev (String c s)) as [rest|] eqn:E.
    + pose proof (rmatch_value rest (Some ":"%char)) as Hv.
      destruct (rmatch (Star isspace :: GROUP_RE) (Some ":"%char) rest GNone) as [g|].
      * exact Hv.
      * rewrite <- Hv, IH. simpl in Hv. symmetry in Hv.
        apply field_value_none in Hv as [_ Ht].
        unfold field_name_at in E. destruct (at_bol prev); [|discriminate].
        destruct (Ascii.eqb c "L" || Ascii.eqb c "l") eqn:Hc; [|discriminate].
        apply strip_prefix_app in E. subst s.
        now rewrite (first_field_after_name c rest Hc Ht).
    + apply IH.
Qed.




(** ** The download URL of a document (C5) *)

Section ResolveUrl.

Variable W : World.
Variable list_url : string.

Lemma pdf_option_url_find (opts : list pyval) :
  forallb option_ok opts = true ->
  pdf_option_url opts =
  Ret (match List.find is_pdf_option opts with
       | Some opt => entry opt "downloadUrl"
       | None => PyNone
       end).
Proof.
  induction opts as [|opt opts IH]; [reflexivity|].
  intros [Hopt Hrest]%andb_true_iff.
  destruct opt as [| | | |l|kv]; try discriminate Hopt.
  simpl pdf_option_url. simpl List.find. unfold is_pdf_option, entry.
  simpl in Hopt.
  destruct (assoc "mimeTypeIdentifier" kv) as [[| | |m| |]|]; try discriminate Hopt.
  - simpl. destruct (String.eqb (upper m) "PDF"); [reflexivity | now apply IH].
  - simpl. now apply IH.
Qed.

(** The loop and the fallback of lines 302-311 raise nothing on a record
    whose option bag can be read. *)
Lemma resolve_url_returns (doc : list (string * pyval)) (doc_id : pyval) :
  bag_ok doc = true ->
  exists official_url, resolve_url W list_url (PyDict doc) doc_id = Ret official_url.
Proof.
  unfold bag_ok, resolve_url. simpl get. unfold mbind, exc_bind, mret, exc_ret.
  destruct (assoc "downloadOptionBag" doc) as [[| | | |l|]|]; try discriminate.
  - intros Hl. simpl iter. cbv iota beta. rewrite (pdf_option_url_find l Hl).
    destruct (negb (truthy _)); eexists; reflexivity.
  - intros _. simpl. eexists. reflexivity.
Qed.

End ResolveUrl.

(** C5, as the program has it.  For a record whose option bag is absent or
    a list of entries with string MIME types, the URL is the [downloadUrl]
    of the first entry whose MIME type is "PDF" in any capitalisation when
    that value is present and not empty; otherwise the top-level
    [downloadUrl] whenever the record has the key, whatever its value;
    otherwise [<listUrl>/<documentIdentifier>]. *)
Theorem resolve_url_preference W list_url (doc : list (string * pyval)) (doc_id : pyval) :
  bag_ok doc = true ->
  resolve_url W list_url (PyDict doc) doc_id
  = Ret (preferred_url (py_repr W) list_url doc doc_id).
Proof.
  unfold bag_ok, resolve_url, preferred_url, option_bag, top_level_url.
  simpl get. unfold mbind, exc_bind, mret, exc_ret.
  destruct (assoc "downloadOptionBag" doc) as [[| | | |l|]|]; try discriminate.
  - intros Hl. simpl iter. cbv iota beta. rewrite (pdf_option_url_find l Hl).
    unfold fmt.
    destruct (List.find is_pdf_option l) as [opt|]; [|reflexivity].
    destruct (truthy (entry opt "downloadUrl")); reflexivity.
  - intros _. reflexivity.
Qed.

Lemma resolve_url_preference_witness :
  resolve_url redirecting_world "https://api.example/docs" (PyDict doc_pdf_without_url) (PyStr "D1")
  = Ret (PyStr "https://api.example/top/D1").
Proof.
  rewrite (resolve_url_preference redirecting_world "https://api.example/docs"
             doc_pdf_without_url (PyStr "D1")); reflexivity.
Defined.

(** C5, as the specification words it, fails.  The first PDF entry of the first
    record has an empty [downloadUrl]: the program passes it over and takes
    the top-level URL, where the specification names the entry's own.  The second
    record has an empty top-level [downloadUrl]: there the program keeps the
    empty value and does not go on to the fallback.  So an empty URL counts
    as missing in the bag and as present at top level. *)
Lemma resolve_url_empty_values :
  resolve_url redirecting_world "https://api.example/docs" (PyDict doc_pdf_without_url) (PyStr "D1")
  = Ret (PyStr "https://api.example/top/D1") /\
  specified_url (py_repr redirecting_world) "https://api.example/docs" doc_pdf_without_url (PyStr "D1")
  = PyStr "" /\
  resolve_url redirecting_world "https://api.example/docs" (PyDict doc_empty_top_level) (PyStr "D2")
  = Ret (PyStr "").
Proof. repeat split. Qed.

(** ** The two-step redirect strategy (C1) *)

Lemma path_exists_insert (d : gmap string file) (p : string) (f : file) :
  path_exists (<[p := f]> d) p = true.
Proof. unfold path_exists. now rewrite lookup_insert_eq. Qed.

Lemma path_exists_delete (d : gmap string file) (p : string) :
  path_exists (delete p d) p = false.
Proof. unfold path_exists. now rewrite lookup_delete_eq. Qed.

(** The value [get_redirect_url] returns is read off the header block that
    [curl] wrote; the state of the disk does not matter to it. *)
Lemma get_redirect_url_value W url api_key temp d d' r :
  get_redirect_url W url api_key temp d = Ret (d', r) ->
  r = redirect_of W url api_key.
Proof.
  unfold get_redirect_url, redirect_of, mbind, exc_bind.
  assert (forall d1, path_exists d1 temp = false ->
            match url with
            | PyStr u =>
                let d2 := match curl_headers W u api_key with
                          | Some h => <[temp := regular h]> d1
                          | None => d1
                          end in
                if negb (path_exists d2 temp) then Ret (d2, None)
                else Ret (d2, try_except (content ← read_text d2 temp;
                                          mret (parse_location content)) None)
            | _ => Ret (d1, None)
            end = Ret (d', r) ->
            r = match url with
                | PyStr u => match curl_headers W u api_key with
                             | Some h => parse_location h
                             | None => None
                             end
                | _ => None
                end) as Hgen.
  { intros d1 Hd1. destruct url as [| | |u| |]; try (now intros [= _ <-]).
    destruct (curl_headers W u api_key) as [h|]; simpl.
    - rewrite path_exists_insert. simpl. unfold read_text.
      rewrite lookup_insert_eq. simpl. now intros [= _ <-].
    - rewrite Hd1. simpl. now intros [= _ <-]. }
  destruct (path_exists d temp) eqn:Hex.
  - unfold remove. unfold path_exists in Hex.
    destruct (d !! temp) as [f|]; [|discriminate].
    destruct (removable f); [|discriminate].
    apply Hgen, path_exists_delete.
  - now apply Hgen.
Qed.


Section StrategyInvariant.

Variable W : World.
Variable api_key : string.
Variable temp : string.

Hypothesis Hkey : is_empty api_key = false.





End StrategyInvariant.


(** The end-to-end scenario of the specification (with the application
    number typed without separators): the probe of the document URL finds
    the redirect, the download goes to object storage without the key, and
    the file is saved and counted. *)
Example end_to_end_scenario :
  exists st,
    run_process one_document_world "KEY" "17123456" "/out" ∅ = Finished st /\
    trace st =
      [EvFetch (PyStr "https://s3.example/doc1.pdf")
         "/out/App_17123456/17123456_2023-05-01_SPEC_D1.pdf" None true true;
       EvProbe (PyStr "https://api.example/doc1") "KEY";
       EvList (list_url_of "17123456") "KEY"] /\
    verify_pdf (fs st) "/out/App_17123456/17123456_2023-05-01_SPEC_D1.pdf" = true /\
    success_count st = 1.
Proof.
  eexists. split; [vm_compute; reflexivity|].
  repeat split; vm_compute; reflexivity.
Qed.


(** ** A target file that already exists (C3) *)

(** C3. When the target file of a document exists and passes [verify_pdf],
    the document is left at once: the state, disk and trace included, is
    unchanged.  When it exists and fails, [os.remove] is tried first and an
    exception it raises is swallowed; the URL is resolved and the probe and
    download run only afterwards, on a disk where the file is gone if the
    removal succeeded. *)
Theorem process_doc_existing_target W api_key temp app_num app_folder list_url
    doc doc_id filename f st :
  doc_filename W app_num doc = Ret (doc_id, filename) ->
  fs st !! path_join app_folder filename = Some f ->
  (verify_pdf (fs st) (path_join app_folder filename) = true ->
   process_doc W api_key temp app_num app_folder list_url doc st = Done st) /\
  (verify_pdf (fs st) (path_join app_folder filename) = false ->
   exists st1,
     fs st1 = (if removable f then delete (path_join app_folder filename) (fs st)
               else fs st) /\
     (removable f = true -> fs st1 !! path_join app_folder filename = None) /\
     trace st1 = EvRemove (path_join app_folder filename) (removable f) :: trace st /\
     success_count st1 = success_count st /\
     process_doc W api_key temp app_num app_folder list_url doc st =
       match resolve_url W list_url doc doc_id with
       | Raise => Crash st1
       | Ret official_url =>
           fetch_document W api_key temp official_url (path_join app_folder filename) st1
       end).
Proof.
  intros Hname Hf. unfold process_doc. rewrite Hname.
  assert (path_exists (fs st) (path_join app_folder filename) = true) as Hex.
  { unfold path_exists. now rewrite Hf. }
  rewrite Hex. split.
  - intros ->. reflexivity.
  - intros ->. simpl andb. cbv iota.
    exists (remove_corrupt (path_join app_folder filename) st).
    unfold remove_corrupt, remove. rewrite Hf.
    destruct (removable f); simpl; repeat split; try reflexivity; try discriminate.
    intros _. apply lookup_delete_eq.
Qed.

Lemma process_doc_existing_target_witness :
  exists st1,
    fs st1 = ∅ /\
    process_doc redirecting_world "KEY" "/out/temp_headers_debug.txt" "17123456"
      "/out/App_17123456" (list_url_of "17123456") doc_D1
      (initial_state {[ "/out/App_17123456/17123456_2023-05-01_SPEC_D1.pdf"
                        := regular "<html>error</html>" ]})
    = fetch_document redirecting_world "KEY" "/out/temp_headers_debug.txt"
        (PyStr "https://api.example/doc1")
        "/out/App_17123456/17123456_2023-05-01_SPEC_D1.pdf" st1.
Proof.
  destruct (process_doc_existing_target redirecting_world "KEY"
              "/out/temp_headers_debug.txt" "17123456" "/out/App_17123456"
              (list_url_of "17123456") doc_D1 (PyStr "D1")
              "17123456_2023-05-01_SPEC_D1.pdf" (regular "<html>error</html>")
              (initial_state {[ "/out/App_17123456/17123456_2023-05-01_SPEC_D1.pdf"
                                := regular "<html>error</html>" ]}))
    as [_ H]; [reflexivity | vm_compute; reflexivity |].
  destruct H as (st1 & Hfs & _ & _ & _ & Hrun); [vm_compute; reflexivity|].
  exists st1. split; [|exact Hrun].
  rewrite Hfs. simpl. apply delete_singleton_eq.
Defined.

(** ** The success counter (C10) *)

Section SuccessCounter.

Variable W : World.
Variable api_key : string.
Variable temp : string.

Lemma counted_set_fs d st : counted st -> counted (set_fs d st).
Proof. trivial. Qed.

Lemma counted_log e st : saved e = false -> counted st -> counted (log e st).
Proof.
  unfold counted, saved_count. simpl. intros ->. trivial.
Qed.

Lemma counted_read_stop st : counted st -> counted (snd (read_stop W st)).
Proof. trivial. Qed.

Lemma counted_download url filepath use_key key st :
  counted st -> counted (download_and_count W url filepath use_key key st).
Proof.
  unfold download_and_count, counted, saved_count.
  destruct (download_final W url filepath use_key key (fs st)) as [rc d].
  destruct rc; [destruct (verify_pdf d filepath)|]; simpl; intros ->; reflexivity.
Qed.

Lemma counted_fetch_document url filepath st :
  counted st -> counted (state_of (fetch_document W api_key temp url filepath st)).
Proof.
  intros H. unfold fetch_document.
  destruct (get_redirect_url W url api_key temp (fs st)) as [[d1 s3_url]|]; [|exact H].
  assert (counted (log (EvProbe url api_key) (set_fs d1 st))) as H1.
  { apply counted_log; [reflexivity|]. now apply counted_set_fs. }
  destruct s3_url as [s3|]; [destruct (is_empty s3)|]; simpl;
    now apply counted_download.
Qed.

Lemma counted_remove_corrupt filepath st :
  counted st -> counted (remove_corrupt filepath st).
Proof.
  intros H. unfold remove_corrupt.
  destruct (remove (fs st) filepath); apply counted_log; trivial.
Qed.

Lemma counted_process_doc app_num app_folder list_url doc st :
  counted st ->
  counted (state_of (process_doc W api_key temp app_num app_folder list_url doc st)).
Proof.
  intros H. unfold process_doc.
  destruct (doc_filename W app_num doc) as [[doc_id filename]|]; [|exact H].
  destruct (path_exists (fs st) (path_join app_folder filename)
            && verify_pdf (fs st) (path_join app_folder filename)); [exact H|].
  assert (counted (if path_exists (fs st) (path_join app_folder filename)
                   then remove_corrupt (path_join app_folder filename) st else st)) as H1.
  { destruct (path_exists _ _); [now apply counted_remove_corrupt | exact H]. }
  destruct (resolve_url W list_url doc doc_id); [|exact H1].
  now apply counted_fetch_document.
Qed.

Lemma counted_run_docs app_num app_folder list_url docs : forall st,
  counted st ->
  counted (state_of (run_docs W api_key temp app_num app_folder list_url docs st)).
Proof.
  induction docs as [|doc rest IH]; intros st H; [exact H|].
  simpl. destruct (stop_flag W (reads st)); [exact H|].
  pose proof (counted_process_doc app_num app_folder list_url doc
                (snd (read_stop W st)) H) as H1.
  simpl in H1.
  destruct (process_doc W api_key temp app_num app_folder list_url doc _);
    [now apply IH | exact H1].
Qed.

Lemma counted_run_apps root_dir apps : forall st,
  counted st ->
  counted (state_of (run_apps W api_key temp root_dir apps st)).
Proof.
  induction apps as [|app_num rest IH]; intros st H; [exact H|].
  simpl. destruct (stop_flag W (reads st)); [exact H|].
  destruct (ensure_folder W _ _) as [d|]; [|exact H].
  destruct (list_documents W api_key (list_url_of app_num)) as [docs|];
    [|now apply IH].
  destruct (negb (truthy docs)); [now apply IH|].
  destruct (len docs); [|exact H].
  destruct (iter docs) as [items|]; [|exact H].
  match goal with
  | |- context [run_docs W api_key temp ?a ?b ?c ?i ?s] =>
      pose proof (counted_run_docs a b c i s) as H1
  end.
  destruct (run_docs W api_key temp _ _ _ items _); [|now apply H1].
  apply IH. now apply H1.
Qed.

End SuccessCounter.

(** One document: at most one download, and the counter grows by one
    exactly when that download returned 0 and left a valid file. *)
Lemma process_doc_counts W api_key temp app_num app_folder list_url doc st :
  exists new,
    trace (state_of (process_doc W api_key temp app_num app_folder list_url doc st))
    = (new ++ trace st)%list /\
    success_count (state_of (process_doc W api_key temp app_num app_folder list_url doc st))
    = success_count st + saved_count new /\
    downloads new <= 1.
Proof.
  unfold process_doc.
  destruct (doc_filename W app_num doc) as [[doc_id filename]|];
    [|exists []; split; [reflexivity|]; unfold saved_count, downloads; split; simpl; lia].
  destruct (path_exists (fs st) (path_join app_folder filename)
            && verify_pdf (fs st) (path_join app_folder filename));
    [exists []; split; [reflexivity|]; unfold saved_count, downloads; split; simpl; lia|].
  assert (exists pre,
            trace (if path_exists (fs st) (path_join app_folder filename)
                   then remove_corrupt (path_join app_folder filename) st else st)
            = (pre ++ trace st)%list /\
            success_count (if path_exists (fs st) (path_join app_folder filename)
                           then remove_corrupt (path_join app_folder filename) st else st)
            = success_count st /\
            saved_count pre = 0 /\ downloads pre = 0) as (pre & Hpre).
  { destruct (path_exists _ _); [|now exists []].
    unfold remove_corrupt. destruct (remove (fs st) _);
      [now exists [EvRemove (path_join app_folder filename) true]
      |now exists [EvRemove (path_join app_folder filename) false]]. }
  set (st1 := if path_exists (fs st) (path_join app_folder filename)
              then remove_corrupt (path_join app_folder filename) st else st) in *.
  destruct Hpre as (Htr & Hsc & Hsaved & Hdl).
  destruct (resolve_url W list_url doc doc_id) as [official_url|].
  2:{ exists pre. simpl. rewrite Htr, Hsc, Hsaved, Hdl.
      split; [reflexivity|]; split; lia. }
  unfold fetch_document.
  destruct (get_redirect_url W official_url api_key temp (fs st1)) as [[d1 s3_url]|].
  2:{ exists pre. simpl. rewrite Htr, Hsc, Hsaved, Hdl.
      split; [reflexivity|]; split; lia. }
  assert (forall url use_key key,
            exists rc valid,
              trace (download_and_count W url (path_join app_folder filename) use_key key
                       (log (EvProbe official_url api_key) (set_fs d1 st1)))
              = EvFetch url (path_join app_folder filename) (key_header use_key key)
                  rc valid :: EvProbe official_url api_key :: trace st1 /\
              success_count (download_and_count W url (path_join app_folder filename)
                               use_key key
                               (log (EvProbe official_url api_key) (set_fs d1 st1)))
              = success_count st1 + (if rc && valid then 1 else 0)) as Hdo.
  { intros url use_key key. unfold download_and_count.
    destruct (download_final W url _ use_key key _) as [rc d]. simpl fs.
    exists rc, (verify_pdf d (path_join app_folder filename)).
    destruct rc; [destruct (verify_pdf d _)|]; simpl; split; trivial; lia. }
  assert (forall url use_key key,
            exists new,
              trace (download_and_count W url (path_join app_folder filename) use_key key
                       (log (EvProbe official_url api_key) (set_fs d1 st1)))
              = (new ++ trace st)%list /\
              success_count (download_and_count W url (path_join app_folder filename)
                               use_key key
                               (log (EvProbe official_url api_key) (set_fs d1 st1)))
              = success_count st + saved_count new /\
              downloads new <= 1) as Hall.
  { intros url use_key key.
    destruct (Hdo url use_key key) as (rc & valid & H1 & H2).
    exists (EvFetch url (path_join app_folder filename) (key_header use_key key)
              rc valid :: EvProbe official_url api_key :: pre).
    rewrite H1, H2, Htr, Hsc. unfold saved_count, downloads in *. simpl.
    destruct (rc && valid); simpl; rewrite ?Hsaved, ?Hdl; repeat split; lia. }
  destruct s3_url as [s3|]; [destruct (is_empty s3)|]; simpl; apply Hall.
Qed.

(** C10. For each document at most one download is made, and the counter
    grows by one exactly when that download returned 0 and its file passed
    [verify_pdf] right after; a document left because its file was already
    valid, a download that fails and a download that leaves an invalid file
    add nothing.  So the number reported at the end of a run is the number of
    downloads of that run that returned 0 and left a valid file. *)
Theorem success_count_counts_saved W :
  (forall api_key temp app_num app_folder list_url doc st,
     exists new,
       trace (state_of (process_doc W api_key temp app_num app_folder list_url doc st))
       = (new ++ trace st)%list /\
       success_count
         (state_of (process_doc W api_key temp app_num app_folder list_url doc st))
       = success_count st + saved_count new /\
       downloads new <= 1) /\
  (forall entry_key txt_list chosen_dir d st,
     run_process W entry_key txt_list chosen_dir d = Finished st ->
     success_count st = saved_count (trace st)).
Proof.
  split; [intros; apply process_doc_counts|].
  intros entry_key txt_list chosen_dir d st. unfold run_process.
  destruct (is_empty (strip entry_key)); [discriminate|].
  destruct (app_numbers_of (strip txt_list)) as [|a apps] eqn:Happs; [discriminate|].
  destruct (is_empty chosen_dir); [discriminate|].
  pose proof (counted_run_apps W (strip entry_key)
                (path_join chosen_dir "temp_headers_debug.txt") chosen_dir
                (a :: apps) (initial_state d) eq_refl) as H.
  destruct (run_apps W _ _ _ _ _) as [st1|st1]; [|discriminate].
  unfold cleanup.
  destruct (path_exists (fs st1) _); [|now intros [= <-]].
  destruct (remove (fs st1) _); [|discriminate].
  now intros [= <-].
Qed.

Lemma success_count_counts_saved_witness :
  exists st,
    run_process two_documents_world "KEY" "17123456 404" "/out" ∅ = Finished st /\
    success_count st = saved_count (trace st) /\
    success_count st = 1 /\ downloads (trace st) = 2.
Proof.
  destruct (run_process two_documents_world "KEY" "17123456 404" "/out" ∅)
    as [| | |st|st] eqn:E; try (vm_compute in E; discriminate E).
  exists st. split; [reflexivity|]. split.
  - exact (proj2 (success_count_counts_saved two_documents_world) _ _ _ _ _ E).
  - vm_compute in E. injection E as <-. split; reflexivity.
Defined.

(** ** Cancellation (C9) *)

Section Cancellation.

Variable W : World.
Variable api_key : string.
Variable temp : string.

Lemma untouched_refl st : untouched st st.
Proof. unfold untouched. repeat split; lia. Qed.

Lemma untouched_trans st1 st2 st3 :
  untouched st1 st2 -> untouched st2 st3 -> untouched st1 st3.
Proof.
  unfold untouched. intros (A1 & A2 & A3 & A4 & A5) (B1 & B2 & B3 & B4 & B5).
  repeat split; try congruence. lia.
Qed.

Lemma untouched_read_stop st : untouched st (snd (read_stop W st)).
Proof. unfold untouched. simpl. repeat split; lia. Qed.




End Cancellation.



(** The cancellation scenario of the specification: applications 1 and 2
    are listed and their documents downloaded, application 3 is never
    listed, and the summary counts the two files. *)
Example cancellation_scenario :
  exists st,
    run_process stopped_world "KEY" "1 2 3" "/out" ∅ = Finished st /\
    List.filter (fun e => match e with EvList _ _ => true | _ => false end) (trace st)
    = [EvList (list_url_of "2") "KEY"; EvList (list_url_of "1") "KEY"] /\
    processed_count st = 2 /\ success_count st = 2 /\
    verify_pdf (fs st) "/out/App_1/1_2023-05-01_SPEC_D1.pdf" = true /\
    verify_pdf (fs st) "/out/App_2/2_2023-05-01_SPEC_D1.pdf" = true /\
    path_exists (fs st) "/out/App_3" = false.
Proof.
  eexists. split; [vm_compute; reflexivity|].
  repeat split; vm_compute; reflexivity.
Qed.

(** ** Running the pipeline again (C4) *)

Section SecondRun.

Variable W : World.
Variable api_key : string.
Variable temp : string.

Lemma verify_pdf_exists d p : verify_pdf d p = true -> path_exists d p = true.
Proof.
  unfold verify_pdf. destruct (path_exists d p); [reflexivity | discriminate].
Qed.

Lemma process_doc_valid_target app_num app_folder list_url doc st :
  target_valid W app_num app_folder (fs st) doc ->
  process_doc W api_key temp app_num app_folder list_url doc st = Done st.
Proof.
  intros (doc_id & filename & Hname & Hvalid). unfold process_doc.
  rewrite Hname, Hvalid, (verify_pdf_exists _ _ Hvalid). reflexivity.
Qed.

Lemma run_docs_valid_targets app_num app_folder list_url docs : forall st,
  Forall (target_valid W app_num app_folder (fs st)) docs ->
  exists st', run_docs W api_key temp app_num app_folder list_url docs st = Done st'
              /\ untouched st st'.
Proof.
  induction docs as [|doc rest IH]; intros st Hall.
  - exists st. split; [reflexivity | apply untouched_refl].
  - inversion Hall as [|? ? Hdoc Hrest]; subst. rewrite run_docs_cons.
    destruct (stop_flag W (reads st)).
    + eexists. split; [reflexivity | apply (untouched_read_stop W st)].
    + rewrite process_doc_valid_target by exact Hdoc.
      destruct (IH (snd (read_stop W st)) Hrest) as (st' & Hrun & Hsame).
      exists st'. split; [exact Hrun|].
      apply (untouched_trans _ _ _ (untouched_read_stop W st) Hsame).
Qed.

Lemma run_apps_settled root_dir d apps : forall st,
  (forall app_num, In app_num apps -> app_settled W api_key root_dir d app_num) ->
  fs st = d ->
  exists st',
    run_apps W api_key temp root_dir apps st = Done st' /\
    fs st' = d /\ success_count st' = success_count st /\
    downloads (trace st') = downloads (trace st).
Proof.
  induction apps as [|app_num rest IH]; intros st Hall Hfs.
  - exists st. now repeat split.
  - destruct (Hall app_num (or_introl eq_refl)) as [Hfolder Hdocs].
    assert (forall a, In a rest -> app_settled W api_key root_dir d a) as Hrest.
    { intros a Ha. apply Hall. now right. }
    rewrite run_apps_cons. destruct (stop_flag W (reads st)).
    + eexists. split; [reflexivity|]. now repeat split.
    + unfold ensure_folder. rewrite Hfs, Hfolder.
      destruct (IH (listed W api_key app_num d st) Hrest eq_refl)
        as (st' & Hskip & F1 & F2 & F3).
      assert (exists st', run_apps W api_key temp root_dir rest
                            (listed W api_key app_num d st) = Done st' /\
                fs st' = d /\ success_count st' = success_count st /\
                downloads (trace st') = downloads (trace st)) as Hskip'.
      { exists st'. now repeat split. }
      destruct (list_documents W api_key (list_url_of app_num)) as [docs|];
        [|exact Hskip'].
      destruct Hdocs as [Hfalse | (items & -> & Hitems)].
      * rewrite Hfalse. exact Hskip'.
      * destruct items as [|doc items]; [exact Hskip'|].
        simpl negb. cbv iota. simpl len. simpl iter. cbv iota.
        destruct (run_docs_valid_targets app_num
                    (path_join root_dir ("App_" +:+ app_num)) (list_url_of app_num)
                    (doc :: items) (listed W api_key app_num d st) Hitems)
          as (st3 & Hrun & Hsame).
        rewrite Hrun. destruct Hsame as (S1 & S2 & S3 & S4 & S5).
        destruct (IH st3 Hrest S1) as (st'' & Hrun' & G1 & G2 & G3).
        exists st''. split; [exact Hrun'|]. split; [exact G1|].
        split; [now rewrite G2, S3 | now rewrite G3, S2].
Qed.

End SecondRun.

Lemma cleanup_finished temp st st' :
  cleanup temp st = Finished st' -> path_exists (fs st') temp = false.
Proof.
  unfold cleanup, remove.
  destruct (path_exists (fs st) temp) eqn:E; [|now intros [= <-]].
  destruct (fs st !! temp) as [f|]; [|discriminate].
  destruct (removable f); [|discriminate].
  intros [= <-]. apply path_exists_delete.
Qed.

(** C4, as the program has it.  After a first run that finished, when every
    application folder exists and every target file of every listed document
    passes [verify_pdf], a second run over the same application numbers into
    the same destination, with the same answers from the servers, finishes
    with the disk as the first run left it, so with the same valid files,
    and performs no download. *)
Theorem rerun_downloads_nothing W entry_key txt_list chosen_dir d st1 :
  run_process W entry_key txt_list chosen_dir d = Finished st1 ->
  (forall app_num, In app_num (app_numbers_of (strip txt_list)) ->
                   app_settled W (strip entry_key) chosen_dir (fs st1) app_num) ->
  exists st2,
    run_process W entry_key txt_list chosen_dir (fs st1) = Finished st2 /\
    fs st2 = fs st1 /\ downloads (trace st2) = 0 /\ success_count st2 = 0.
Proof.
  unfold run_process.
  destruct (is_empty (strip entry_key)); [discriminate|].
  destruct (app_numbers_of (strip txt_list)) as [|a apps]; [discriminate|].
  destruct (is_empty chosen_dir); [discriminate|].
  destruct (run_apps W _ _ _ _ (initial_state d)) as [st|st]; [|discriminate].
  intros Htemp%cleanup_finished Hall.
  destruct (run_apps_settled W (strip entry_key)
              (path_join chosen_dir "temp_headers_debug.txt") chosen_dir (fs st1)
              (a :: apps) (initial_state (fs st1)) Hall eq_refl)
    as (st2 & Hrun & Hfs & Hcount & Hdl).
  rewrite Hrun. exists st2. unfold cleanup. rewrite Hfs, Htemp. now repeat split.
Qed.

Lemma rerun_downloads_nothing_witness :
  exists st1 st2,
    run_process one_document_world "KEY" "17123456" "/out" ∅ = Finished st1 /\
    success_count st1 = 1 /\
    run_process one_document_world "KEY" "17123456" "/out" (fs st1) = Finished st2 /\
    fs st2 = fs st1 /\ downloads (trace st2) = 0 /\ success_count st2 = 0.
Proof.
  destruct (run_process one_document_world "KEY" "17123456" "/out" ∅)
    as [| | |st1|st1] eqn:E; try (vm_compute in E; discriminate E).
  destruct (rerun_downloads_nothing one_document_world "KEY" "17123456" "/out" ∅ st1 E)
    as (st2 & Hrun & Hfs & Hdl & Hcount).
  - vm_compute in E. injection E as <-.
    intros app_num Hin. vm_compute in Hin. destruct Hin as [<-|[]].
    split; [vm_compute; reflexivity|].
    change (list_documents one_document_world (strip "KEY") (list_url_of "17123456"))
      with (Ret (PyList [doc_D1])).
    right. exists [doc_D1]. split; [reflexivity|].
    constructor; [|constructor].
    exists (PyStr "D1"), "17123456_2023-05-01_SPEC_D1.pdf".
    split; vm_compute; reflexivity.
  - exists st1, st2. repeat split; trivial.
    vm_compute in E. injection E as <-. reflexivity.
Defined.

(** C4, as the specification words it, fails.  The third document is served as an
    HTML page: the first run downloads it and leaves a file that does not
    pass [verify_pdf], and the second run, with the same answers from the
    servers, removes that file and downloads it again. *)
Lemma rerun_downloads_corrupt_again :
  exists st1 st2,
    run_process two_documents_world "KEY" "17123456" "/out" ∅ = Finished st1 /\
    verify_pdf (fs st1) "/out/App_17123456/17123456_nodate_DOC_D3.pdf" = false /\
    run_process two_documents_world "KEY" "17123456" "/out" (fs st1) = Finished st2 /\
    downloads (trace st2) = 1.
Proof.
  eexists. eexists. split; [vm_compute; reflexivity|].
  split; [vm_compute; reflexivity|].
  split; [vm_compute; reflexivity|].
  vm_compute; reflexivity.
Qed.

(** ** Failures below the batch level (C7) *)

Section Failures.

Variable W : World.
Variable api_key : string.
Variable temp : string.

Lemma scratch_ok_insert_regular d p data :
  scratch_ok temp d -> scratch_ok temp (<[p := regular data]> d).
Proof.
  unfold scratch_ok. intros H. destruct (decide (p = temp)) as [->|Hne].
  - now rewrite lookup_insert_eq.
  - now rewrite lookup_insert_ne.
Qed.

Lemma scratch_ok_delete d p : scratch_ok temp d -> scratch_ok temp (delete p d).
Proof.
  unfold scratch_ok. intros H. destruct (decide (p = temp)) as [->|Hne].
  - now rewrite lookup_delete_eq.
  - now rewrite lookup_delete_ne.
Qed.

Lemma get_redirect_url_ok url d :
  scratch_ok temp d ->
  exists d' r, get_redirect_url W url api_key temp d = Ret (d', r) /\ scratch_ok temp d'.
Proof.
  intros Hd. unfold get_redirect_url.
  assert (exists d1, (if path_exists d temp then remove d temp else Ret d) = Ret d1
                     /\ scratch_ok temp d1) as (d1 & -> & Hd1).
  { pose proof Hd as Hf. unfold path_exists, remove. unfold scratch_ok in Hf.
    destruct (d !! temp) as [f|].
    - rewrite Hf. eexists. split; [reflexivity|]. now apply scratch_ok_delete.
    - now exists d. }
  unfold mbind, exc_bind.
  destruct url as [| | |u| |]; try (now exists d1, None).
  cbv zeta.
  destruct (curl_headers W u api_key) as [h|].
  - destruct (negb (path_exists (<[temp:=regular h]> d1) temp));
      eexists; eexists; (split; [reflexivity|]); now apply scratch_ok_insert_regular.
  - destruct (negb (path_exists d1 temp)); eexists; eexists; now split.
Qed.

Lemma download_and_count_ok url filepath use_key key st :
  scratch_ok temp (fs st) ->
  scratch_ok temp (fs (download_and_count W url filepath use_key key st)).
Proof.
  intros H. unfold download_and_count, download_final.
  destruct url as [| | |u| |];
    try (simpl; exact H).
  destruct (curl_download W u (key_header use_key key)) as [rc body].
  assert (scratch_ok temp (match body with
                           | Some b => <[filepath:=regular b]> (fs st)
                           | None => fs st
                           end)) as H'.
  { destruct body; [now apply scratch_ok_insert_regular | exact H]. }
  destruct rc; [destruct (verify_pdf _ filepath)|]; exact H'.
Qed.

Lemma fetch_document_ok url filepath st :
  scratch_ok temp (fs st) ->
  exists st', fetch_document W api_key temp url filepath st = Done st'
              /\ scratch_ok temp (fs st').
Proof.
  intros H. unfold fetch_document.
  destruct (get_redirect_url_ok url (fs st) H) as (d1 & r & -> & Hd1).
  destruct r as [s3|]; [destruct (is_empty s3)|]; simpl negb; cbv iota;
    eexists; (split; [reflexivity|]); now apply download_and_count_ok.
Qed.

Lemma remove_corrupt_ok filepath st :
  scratch_ok temp (fs st) -> scratch_ok temp (fs (remove_corrupt filepath st)).
Proof.
  intros H. unfold remove_corrupt, remove.
  destruct (fs st !! filepath) as [f|]; [|exact H].
  destruct (removable f); [|exact H]. now apply scratch_ok_delete.
Qed.

Lemma doc_filename_ok app_num kv :
  doc_ok (PyDict kv) = true ->
  exists doc_id filename, doc_filename W app_num (PyDict kv) = Ret (doc_id, filename).
Proof.
  unfold doc_ok, doc_filename. intros [Hdate _]%andb_true_iff.
  simpl get. unfold mbind, exc_bind, mret, exc_ret.
  destruct (assoc "officialDate" kv) as [[| | |s| |]|]; try discriminate Hdate;
    eexists; eexists; reflexivity.
Qed.

(** A well-formed record is dealt with without an exception, whatever
    the probe and the download do. *)
Lemma process_doc_ok app_num app_folder list_url doc st :
  doc_ok doc = true ->
  scratch_ok temp (fs st) ->
  exists st', process_doc W api_key temp app_num app_folder list_url doc st = Done st'
              /\ scratch_ok temp (fs st').
Proof.
  intros Hdoc Hst. destruct doc as [| | | | |kv]; try discriminate Hdoc.
  destruct (doc_filename_ok app_num kv Hdoc) as (doc_id & filename & Hname).
  unfold process_doc. rewrite Hname.
  destruct (path_exists (fs st) (path_join app_folder filename)
            && verify_pdf (fs st) (path_join app_folder filename)).
  - now exists st.
  - apply andb_true_iff in Hdoc as [_ Hbag].
    destruct (resolve_url_returns W list_url kv doc_id Hbag) as (official_url & ->).
    apply fetch_document_ok.
    destruct (path_exists (fs st) (path_join app_folder filename));
      [now apply remove_corrupt_ok | exact Hst].
Qed.

Lemma run_docs_ok app_num app_folder list_url docs : forall st,
  forallb doc_ok docs = true ->
  scratch_ok temp (fs st) ->
  exists st', run_docs W api_key temp app_num app_folder list_url docs st = Done st'
              /\ scratch_ok temp (fs st').
Proof.
  induction docs as [|doc rest IH]; intros st Hdocs Hst.
  - now exists st.
  - apply andb_true_iff in Hdocs as [Hdoc Hrest]. rewrite run_docs_cons.
    destruct (stop_flag W (reads st)).
    + eexists. split; [reflexivity | exact Hst].
    + destruct (process_doc_ok app_num app_folder list_url doc
                  (snd (read_stop W st)) Hdoc Hst) as (st1 & -> & Hst1).
      now apply IH.
Qed.

End Failures.

Lemma append_inv_head (a x y : string) : a +:+ x = a +:+ y -> x = y.
Proof.
  induction a as [|c a IH]; [trivial|].
  rewrite !append_cons. intros [= H]. now apply IH.
Qed.

(** The folder of an application is not the scratch header file. *)
Lemma app_folder_not_scratch root_dir app_num :
  path_join root_dir ("App_" +:+ app_num) <> path_join root_dir "temp_headers_debug.txt".
Proof.
  unfold path_join.
  change ("App_" +:+ app_num) with (String "A" ("pp_" +:+ app_num)).
  cbv iota beta.
  destruct (is_empty root_dir); [discriminate|].
  destruct (String.eqb _ "/"); intros H; apply append_inv_head in H;
    [discriminate H|].
  apply (append_inv_head "/") in H. discriminate H.
Qed.

Section FailuresRun.

Variable W : World.
Variable api_key : string.
Variable root_dir : string.

Hypothesis Hlisting : listing_ok W api_key.
Hypothesis Hmakedirs : forall p, makedirs_fails W p = false.

Lemma ensure_folder_ok app_num d :
  scratch_ok (path_join root_dir "temp_headers_debug.txt") d ->
  exists d', ensure_folder W (path_join root_dir ("App_" +:+ app_num)) d = Ret d'
             /\ scratch_ok (path_join root_dir "temp_headers_debug.txt") d'.
Proof.
  intros Hd. unfold ensure_folder.
  destruct (path_exists d _); [now exists d|].
  rewrite Hmakedirs. eexists. split; [reflexivity|].
  unfold scratch_ok. rewrite lookup_insert_ne; [exact Hd|].
  apply app_folder_not_scratch.
Qed.

Lemma run_apps_ok apps : forall st,
  scratch_ok (path_join root_dir "temp_headers_debug.txt") (fs st) ->
  exists st',
    run_apps W api_key (path_join root_dir "temp_headers_debug.txt") root_dir apps st
    = Done st'
    /\ scratch_ok (path_join root_dir "temp_headers_debug.txt") (fs st').
Proof.
  induction apps as [|app_num rest IH]; intros st Hst; [now exists st|].
  rewrite run_apps_cons. destruct (stop_flag W (reads st)).
  - eexists. split; [reflexivity | exact Hst].
  - destruct (ensure_folder_ok app_num (fs st) Hst) as (d & -> & Hd).
    assert (scratch_ok (path_join root_dir "temp_headers_debug.txt")
              (fs (listed W api_key app_num d st))) as Hlisted by exact Hd.
    pose proof (Hlisting (list_url_of app_num)) as Hdocs.
    destruct (list_documents W api_key (list_url_of app_num)) as [docs|];
      [|now apply IH].
    unfold docs_ok in Hdocs.
    destruct (truthy docs) eqn:Ht; simpl negb in *; cbv iota; [|now apply IH].
    destruct docs as [| | | |items|]; try discriminate Hdocs.
    simpl len. simpl iter. cbv iota.
    destruct (run_docs_ok W api_key _ app_num
                (path_join root_dir ("App_" +:+ app_num)) (list_url_of app_num)
                items _ Hdocs Hlisted) as (st3 & -> & Hst3).
    now apply IH.
Qed.

End FailuresRun.

(** C7, as the program has it.  On a world whose list requests fail or
    give well-formed records (dicts whose [officialDate] is a string when
    present and whose option bag is a list of entries with string MIME
    types), with folders that can be created and a scratch file that can be
    removed, no failure ends the run: [run_process] is not ended by an
    exception; a document is followed by the next one whatever its probe, its
    download and the validation of its file do; and an application whose
    list request fails is followed by the next one. *)
Theorem failures_do_not_end_run W entry_key txt_list chosen_dir d :
  listing_ok W (strip entry_key) ->
  (forall p, makedirs_fails W p = false) ->
  scratch_ok (path_join chosen_dir "temp_headers_debug.txt") d ->
  match run_process W entry_key txt_list chosen_dir d with
  | Crashed _ => False
  | _ => True
  end /\
  (forall app_num app_folder list_url doc rest st,
     doc_ok doc = true ->
     scratch_ok (path_join chosen_dir "temp_headers_debug.txt") (fs st) ->
     stop_flag W (reads st) = false ->
     exists st',
       run_docs W (strip entry_key) (path_join chosen_dir "temp_headers_debug.txt")
         app_num app_folder list_url (doc :: rest) st
       = run_docs W (strip entry_key) (path_join chosen_dir "temp_headers_debug.txt")
           app_num app_folder list_url rest st'
       /\ scratch_ok (path_join chosen_dir "temp_headers_debug.txt") (fs st')) /\
  (forall app_num rest st,
     list_documents W (strip entry_key) (list_url_of app_num) = Raise ->
     scratch_ok (path_join chosen_dir "temp_headers_debug.txt") (fs st) ->
     stop_flag W (reads st) = false ->
     exists st',
       run_apps W (strip entry_key) (path_join chosen_dir "temp_headers_debug.txt")
         chosen_dir (app_num :: rest) st
       = run_apps W (strip entry_key) (path_join chosen_dir "temp_headers_debug.txt")
           chosen_dir rest st'
       /\ scratch_ok (path_join chosen_dir "temp_headers_debug.txt") (fs st')).
Proof.
  intros Hlisting Hmakedirs Hd. repeat split.
  - unfold run_process.
    destruct (is_empty (strip entry_key)); [exact I|].
    destruct (app_numbers_of (strip txt_list)) as [|a apps]; [exact I|].
    destruct (is_empty chosen_dir); [exact I|].
    destruct (run_apps_ok W (strip entry_key) chosen_dir Hlisting Hmakedirs
                (a :: apps) (initial_state d) Hd) as (st & -> & Hst).
    unfold cleanup, path_exists, remove. unfold scratch_ok in Hst.
    destruct (fs st !! _) as [f|]; [|exact I]. now rewrite Hst.
  - intros app_num app_folder list_url doc rest st Hdoc Hst Hstop.
    rewrite run_docs_cons, Hstop.
    destruct (process_doc_ok W (strip entry_key) _ app_num app_folder list_url doc
                (snd (read_stop W st)) Hdoc Hst) as (st1 & -> & Hst1).
    now exists st1.
  - intros app_num rest st Hlist Hst Hstop.
    rewrite run_apps_cons, Hstop, Hlist.
    destruct (ensure_folder_ok W chosen_dir Hmakedirs app_num (fs st) Hst)
      as (d' & -> & Hd').
    now exists (listed W (strip entry_key) app_num d' st).
Qed.

Lemma failures_do_not_end_run_witness :
  match run_process two_documents_world "KEY" "17123456 404" "/out" ∅ with
  | Crashed _ => False
  | _ => True
  end.
Proof.
  apply (failures_do_not_end_run two_documents_world "KEY" "17123456 404" "/out" ∅).
  - intros list_url. unfold list_documents. simpl list_endpoint.
    unfold one_application, mbind, exc_bind.
    destruct (String.eqb list_url (list_url_of "17123456")); [reflexivity | exact I].
  - reflexivity.
  - exact I.
Defined.

(** C7, as the specification words it, fails.  The first record of the list has
    [officialDate: null]: [.split('T')] raises AttributeError outside any
    [try], the worker ends there, and the second document, which is well
    formed, is neither probed nor downloaded. *)
Lemma malformed_record_ends_run :
  exists st,
    run_process null_date_world "KEY" "17123456" "/out" ∅ = Crashed st /\
    trace st = [EvList (list_url_of "17123456") "KEY"] /\
    success_count st = 0.
Proof. eexists. split; [vm_compute; reflexivity|]. split; reflexivity. Qed.

(** * Further properties of the pipeline *)

(** ** Files that already pass validation *)

Lemma verify_pdf_lookup (d1 d2 : gmap string file) (p : string) :
  d1 !! p = d2 !! p -> verify_pdf d1 p = verify_pdf d2 p.
Proof. rewrite !verify_pdf_unfold. now intros ->. Qed.

(** [get_redirect_url] writes and removes the scratch header file only. *)
Lemma get_redirect_url_frame W url api_key temp d d' r :
  get_redirect_url W url api_key temp d = Ret (d', r) ->
  forall p, p <> temp -> d' !! p = d !! p.
Proof.
  unfold get_redirect_url, mbind, exc_bind. intros H p Hp.
  assert (forall d1, (forall q, q <> temp -> d1 !! q = d !! q) ->
            match url with
            | PyStr u =>
                let d2 := match curl_headers W u api_key with
                          | Some h => <[temp := regular h]> d1
                          | None => d1
                          end in
                if negb (path_exists d2 temp) then Ret (d2, None)
                else Ret (d2, try_except (content ← read_text d2 temp;
                                          mret (parse_location content)) None)
            | _ => Ret (d1, None)
            end = Ret (d', r) -> d' !! p = d !! p) as Hgen.
  { intros d1 Hd1. destruct url as [| | |u| |];
      try (intros [= <- _]; now apply Hd1).
    cbv zeta. destruct (curl_headers W u api_key) as [h|].
    - destruct (negb _); intros [= <- _];
        (rewrite lookup_insert_ne by congruence); now apply Hd1.
    - destruct (negb _); intros [= <- _]; now apply Hd1. }
  destruct (path_exists d temp).
  - unfold remove in H. destruct (d !! temp) as [f|]; [|discriminate].
    destruct (removable f); [|discriminate].
    apply (Hgen (delete temp d)); [|exact H].
    intros q Hq. apply lookup_delete_ne. congruence.
  - now apply (Hgen d).
Qed.

(** [download_final] writes its output path only. *)
Lemma download_final_frame W url filepath use_key key d p :
  p <> filepath ->
  snd (download_final W url filepath use_key key d) !! p = d !! p.
Proof.
  intros Hp. unfold download_final.
  destruct url as [| | |u| |]; try reflexivity.
  destruct (curl_download W u (key_header use_key key)) as [rc [b|]]; simpl;
    [apply lookup_insert_ne; congruence | reflexivity].
Qed.

Section ValidFilesKept.

Variable W : World.
Variable api_key : string.
Variable temp : string.
Variable d0 : gmap string file.
Variable p : string.

Hypothesis Hp : p <> temp.
Hypothesis Hvalid : verify_pdf d0 p = true.

Lemma kept_download url filepath use_key key st :
  p <> filepath ->
  fs st !! p = d0 !! p ->
  fs (download_and_count W url filepath use_key key st) !! p = d0 !! p.
Proof.
  intros Hne H. unfold download_and_count.
  pose proof (download_final_frame W url filepath use_key key (fs st) p Hne) as Hf.
  destruct (download_final W url filepath use_key key (fs st)) as [rc d].
  simpl in Hf.
  destruct rc; [destruct (verify_pdf d filepath)|]; simpl; congruence.
Qed.

Lemma kept_process_doc app_num app_folder list_url doc st :
  fs st !! p = d0 !! p ->
  fs (state_of (process_doc W api_key temp app_num app_folder list_url doc st)) !! p
  = d0 !! p.
Proof.
  intros H. unfold process_doc.
  destruct (doc_filename W app_num doc) as [[doc_id filename]|]; [|exact H].
  set (filepath := path_join app_folder filename).
  destruct (path_exists (fs st) filepath && verify_pdf (fs st) filepath) eqn:Hskip;
    [exact H|].
  assert (p <> filepath) as Hne.
  { intros <-. rewrite (verify_pdf_lookup (fs st) d0 p H), Hvalid in Hskip.
    rewrite (verify_pdf_exists (fs st) p) in Hskip; [discriminate|].
    now rewrite (verify_pdf_lookup (fs st) d0 p H). }
  assert (fs (if path_exists (fs st) filepath then remove_corrupt filepath st else st)
          !! p = d0 !! p) as H1.
  { destruct (path_exists (fs st) filepath); [|exact H].
    unfold remove_corrupt, remove. destruct (fs st !! filepath) as [f|]; [|exact H].
    destruct (removable f); [|exact H]. simpl.
    rewrite lookup_delete_ne by congruence. exact H. }
  set (st1 := if path_exists (fs st) filepath then remove_corrupt filepath st else st) in *.
  destruct (resolve_url W list_url doc doc_id) as [official_url|]; [|exact H1].
  unfold fetch_document.
  destruct (get_redirect_url W official_url api_key temp (fs st1))
    as [[d1 s3_url]|] eqn:E; [|exact H1].
  pose proof (get_redirect_url_frame _ _ _ _ _ _ _ E p Hp) as Hd1.
  destruct s3_url as [s3|]; [destruct (is_empty s3)|]; simpl;
    apply kept_download; trivial; simpl; congruence.
Qed.

Lemma kept_run_docs app_num app_folder list_url docs : forall st,
  fs st !! p = d0 !! p ->
  fs (state_of (run_docs W api_key temp app_num app_folder list_url docs st)) !! p
  = d0 !! p.
Proof.
  induction docs as [|doc rest IH]; intros st H; [exact H|].
  rewrite run_docs_cons. destruct (stop_flag W (reads st)); [exact H|].
  pose proof (kept_process_doc app_num app_folder list_url doc
                (snd (read_stop W st)) H) as H1.
  destruct (process_doc W api_key temp app_num app_folder list_url doc _);
    [now apply IH | exact H1].
Qed.

Lemma kept_ensure_folder app_folder d d' :
  d !! p = d0 !! p ->
  ensure_folder W app_folder d = Ret d' ->
  d' !! p = d0 !! p.
Proof.
  intros H. unfold ensure_folder.
  destruct (path_exists d app_folder) eqn:Hex; [now intros [= <-]|].
  destruct (makedirs_fails W app_folder); [discriminate|].
  intros [= <-]. rewrite lookup_insert_ne; [exact H|]. intros <-.
  unfold path_exists in Hex. rewrite H in Hex.
  pose proof (verify_pdf_exists d0 app_folder Hvalid) as He.
  unfold path_exists in He. destruct (d0 !! app_folder); discriminate.
Qed.

Lemma kept_run_apps root_dir apps : forall st,
  fs st !! p = d0 !! p ->
  fs (state_of (run_apps W api_key temp root_dir apps st)) !! p = d0 !! p.
Proof.
  induction apps as [|app_num rest IH]; intros st H; [exact H|].
  rewrite run_apps_cons. destruct (stop_flag W (reads st)); [exact H|].
  destruct (ensure_folder W _ (fs st)) as [d|] eqn:E; [|exact H].
  assert (fs (listed W api_key app_num d st) !! p = d0 !! p) as Hl
    by exact (kept_ensure_folder _ _ _ H E).
  destruct (list_documents W api_key (list_url_of app_num)) as [docs|];
    [|now apply IH].
  destruct (negb (truthy docs)); [now apply IH|].
  destruct (len docs); [|exact Hl].
  destruct (iter docs) as [items|]; [|exact Hl].
  pose proof (kept_run_docs app_num (path_join root_dir ("App_" +:+ app_num))
                (list_url_of app_num) items _ Hl) as H1.
  destruct (run_docs W api_key temp _ _ _ items _); [now apply IH | exact H1].
Qed.

End ValidFilesKept.

(** X1. A file that passes [verify_pdf] before a run is the same file after
    it, however the run ends: the run neither removes nor overwrites it.
    (The scratch header file is the one path left out.) *)
Theorem run_keeps_valid_files W entry_key txt_list chosen_dir d p :
  p <> path_join chosen_dir "temp_headers_debug.txt" ->
  verify_pdf d p = true ->
  match run_process W entry_key txt_list chosen_dir d with
  | Finished st | Crashed st => fs st !! p = d !! p
  | _ => True
  end.
Proof.
  intros Hp Hvalid. unfold run_process.
  destruct (is_empty (strip entry_key)); [exact I|].
  destruct (app_numbers_of (strip txt_list)) as [|a apps]; [exact I|].
  destruct (is_empty chosen_dir); [exact I|].
  pose proof (kept_run_apps W (strip entry_key)
                (path_join chosen_dir "temp_headers_debug.txt") d p Hp Hvalid
                chosen_dir (a :: apps) (initial_state d) eq_refl) as H.
  destruct (run_apps W _ _ _ _ _) as [st|st]; [|exact H].
  unfold cleanup, remove. change (fs st !! p = d !! p) in H.
  destruct (path_exists (fs st) _); [|exact H].
  destruct (fs st !! path_join chosen_dir "temp_headers_debug.txt") as [f|]; [|exact H].
  destruct (removable f); [|exact H].
  unfold set_fs. cbn [fs]. rewrite lookup_delete_ne; [exact H|].
  intros E. apply Hp. now symmetry.
Qed.

Lemma run_keeps_valid_files_witness :
  match run_process two_documents_world "KEY" "17123456" "/out"
          {[ "/out/App_17123456/17123456_2023-05-01_SPEC_D1.pdf"
             := regular (pdf_body +:+ "saved earlier") ]} with
  | Finished st | Crashed st =>
      fs st !! "/out/App_17123456/17123456_2023-05-01_SPEC_D1.pdf"
      = ({[ "/out/App_17123456/17123456_2023-05-01_SPEC_D1.pdf"
            := regular (pdf_body +:+ "saved earlier") ]} : gmap string file)
        !! "/out/App_17123456/17123456_2023-05-01_SPEC_D1.pdf"
  | _ => True
  end.
Proof.
  apply (run_keeps_valid_files two_documents_world "KEY" "17123456" "/out").
  - intros E. vm_compute in E. discriminate E.
  - vm_compute. reflexivity.
Defined.

(** ** A document met twice *)



(** ** The application numbers read from the text box *)

Lemma replace_slash_app_char t :
  all_chars token_char t = true ->
  all_chars app_char (replace "/" "" t) = true.
Proof.
  induction t as [|c t IH]; [reflexivity|]. simpl.
  intros [Hc Ht]%andb_true_iff.
  destruct (Ascii.eqb c "/") eqn:E.
  - change ("" +:+ replace "/" "" t) with (replace "/" "" t). now apply IH.
  - simpl. rewrite (IH Ht), andb_true_r. unfold app_char, token_char in *.
    now rewrite Hc, E.
Qed.

Lemma app_numbers_of_split raw_list :
  app_numbers_of raw_list
  = map (replace "/" "") (split (replace "," " " (replace LF " " raw_list))).
Proof.
  unfold app_numbers_of. apply app_numbers_of_tokens.
  apply split_from_tokens; [reflexivity | apply replace_comma_by_space].
Qed.

(** X3. Whatever is typed, no application number holds white space, a comma
    or a slash. *)
Theorem app_numbers_have_no_separator raw_list :
  Forall (fun a => all_chars app_char a = true) (app_numbers_of raw_list).
Proof.
  rewrite app_numbers_of_split. apply Forall_map. unfold split.
  pose proof (split_from_tokens (replace "," " " (replace LF " " raw_list))
                EmptyString eq_refl (replace_comma_by_space _)) as H.
  induction H as [|t ts [Ht _] _ IH]; constructor; [|exact IH].
  now apply replace_slash_app_char.
Qed.

Lemma split_from_nil s : forall cur,
  split_from cur s = [] <-> is_empty cur = true /\ all_chars isspace s = true.
Proof.
  induction s as [|c s IH]; intros cur; simpl.
  - destruct (is_empty cur); intuition congruence.
  - destruct (isspace c) eqn:Hc; simpl.
    + destruct (is_empty cur) eqn:E.
      * rewrite IH. intuition congruence.
      * intuition congruence.
    + rewrite IH, is_empty_snoc. intuition congruence.
Qed.

Lemma separators_replaced raw_list :
  all_chars isspace (replace "," " " (replace LF " " raw_list))
  = all_chars separator raw_list.
Proof.
  induction raw_list as [|c s IH]; [reflexivity|].
  simpl replace at 2. destruct (Ascii.eqb c LF) eqn:E1.
  - apply Ascii.eqb_eq in E1. subst c.
    change (" " +:+ replace LF " " s) with (String " " (replace LF " " s)).
    simpl. exact IH.
  - simpl replace. destruct (Ascii.eqb c ",") eqn:E2.
    + change (" " +:+ replace "," " " (replace LF " " s))
        with (String " " (replace "," " " (replace LF " " s))).
      simpl. rewrite IH. unfold separator. rewrite E2. now rewrite orb_true_r.
    + simpl. rewrite IH. unfold separator. rewrite E2. now rewrite orb_false_r.
Qed.

(** X4. The text yields no application number at all exactly when it holds
    nothing but white space and commas; any other character, a lone slash
    included, yields an identifier. *)
Theorem app_numbers_of_nil raw_list :
  app_numbers_of raw_list = [] <-> all_chars separator raw_list = true.
Proof.
  rewrite app_numbers_of_split, <- separators_replaced. unfold split.
  pose proof (split_from_nil (replace "," " " (replace LF " " raw_list)) EmptyString)
    as [H1 H2].
  split.
  - intros H. apply H1. now destruct (split_from _ _).
  - intros H. now rewrite H2.
Qed.

(** ** The order of the list requests *)

Section ListRequests.

Variable W : World.
Variable api_key : string.
Variable temp : string.

Lemma requests_download url filepath use_key key st :
  list_requests (trace (download_and_count W url filepath use_key key st))
  = list_requests (trace st) /\
  processed_count (download_and_count W url filepath use_key key st)
  = processed_count st.
Proof.
  unfold download_and_count.
  destruct (download_final W url filepath use_key key (fs st)) as [rc d].
  destruct rc; [destruct (verify_pdf d filepath)|]; now split.
Qed.

Lemma requests_process_doc app_num app_folder list_url doc st :
  list_requests
    (trace (state_of (process_doc W api_key temp app_num app_folder list_url doc st)))
  = list_requests (trace st) /\
  processed_count (state_of (process_doc W api_key temp app_num app_folder list_url doc st))
  = processed_count st.
Proof.
  unfold process_doc.
  destruct (doc_filename W app_num doc) as [[doc_id filename]|]; [|now split].
  destruct (path_exists (fs st) (path_join app_folder filename)
            && verify_pdf (fs st) (path_join app_folder filename)); [now split|].
  assert (list_requests
            (trace (if path_exists (fs st) (path_join app_folder filename)
                    then remove_corrupt (path_join app_folder filename) st else st))
          = list_requests (trace st) /\
          processed_count (if path_exists (fs st) (path_join app_folder filename)
                           then remove_corrupt (path_join app_folder filename) st else st)
          = processed_count st) as [H1 H2].
  { destruct (path_exists _ _); [|now split].
    unfold remove_corrupt. destruct (remove (fs st) _); now split. }
  destruct (resolve_url W list_url doc doc_id) as [official_url|]; [|now split].
  unfold fetch_document.
  destruct (get_redirect_url W official_url api_key temp _) as [[d1 s3_url]|];
    [|now split].
  assert (forall url use_key key,
            list_requests
              (trace (download_and_count W url (path_join app_folder filename) use_key key
                        (log (EvProbe official_url api_key)
                           (set_fs d1
                              (if path_exists (fs st) (path_join app_folder filename)
                               then remove_corrupt (path_join app_folder filename) st
                               else st)))))
            = list_requests (trace st) /\
            processed_count
              (download_and_count W url (path_join app_folder filename) use_key key
                 (log (EvProbe official_url api_key)
                    (set_fs d1
                       (if path_exists (fs st) (path_join app_folder filename)
                        then remove_corrupt (path_join app_folder filename) st
                        else st))))
            = processed_count st) as Hdl.
  { intros url use_key key.
    destruct (requests_download url (path_join app_folder filename) use_key key
                (log (EvProbe official_url api_key)
                   (set_fs d1
                      (if path_exists (fs st) (path_join app_folder filename)
                       then remove_corrupt (path_join app_folder filename) st
                       else st)))) as [D1 D2].
    rewrite D1, D2. simpl. now split. }
  destruct s3_url as [s3|]; [destruct (is_empty s3)|]; simpl negb; cbv iota;
    apply Hdl.
Qed.

Lemma requests_run_docs app_num app_folder list_url docs : forall st,
  list_requests
    (trace (state_of (run_docs W api_key temp app_num app_folder list_url docs st)))
  = list_requests (trace st) /\
  processed_count (state_of (run_docs W api_key temp app_num app_folder list_url docs st))
  = processed_count st.
Proof.
  induction docs as [|doc rest IH]; intros st; [now split|].
  rewrite run_docs_cons. destruct (stop_flag W (reads st)); [now split|].
  pose proof (requests_process_doc app_num app_folder list_url doc
                (snd (read_stop W st))) as [H1 H2].
  destruct (process_doc W api_key temp app_num app_folder list_url doc _) as [st1|st1];
    [|now split].
  destruct (IH st1) as [I1 I2]. simpl in H1, H2. split; congruence.
Qed.

(** The loop over the applications sends the list requests of a prefix of
    its list, in order, and counts them. *)
Lemma requests_run_apps root_dir apps : forall st st',
  run_apps W api_key temp root_dir apps st = Done st' ->
  exists n,
    n <= length apps /\
    processed_count st' = processed_count st + n /\
    list_requests (trace st')
    = (list_requests (trace st) ++ map list_url_of (take n apps))%list /\
    ((forall k, stop_flag W k = false) -> n = length apps).
Proof.
  induction apps as [|app_num rest IH]; intros st st'.
  - intros [= <-]. exists 0. simpl. rewrite app_nil_r. repeat split; lia.
  - rewrite run_apps_cons. destruct (stop_flag W (reads st)) eqn:Hstop.
    { intros [= <-]. exists 0. simpl. rewrite app_nil_r.
      repeat split; try lia. intros Hnever. now rewrite Hnever in Hstop. }
    destruct (ensure_folder W _ (fs st)) as [d|]; [|discriminate].
    assert (forall s,
              list_requests (trace s)
              = (list_requests (trace st) ++ [list_url_of app_num])%list ->
              processed_count s = S (processed_count st) ->
              run_apps W api_key temp root_dir rest s = Done st' ->
              exists n,
                n <= length (app_num :: rest) /\
                processed_count st' = processed_count st + n /\
                list_requests (trace st')
                = (list_requests (trace st)
                   ++ map list_url_of (take n (app_num :: rest)))%list /\
                ((forall k, stop_flag W k = false) -> n = length (app_num :: rest)))
      as Hnext.
    { intros s Hs1 Hs2 Hrun. destruct (IH s st' Hrun) as (n & Hn & Hc & Hr & Hall).
      exists (S n). simpl. rewrite Hc, Hs2, Hr, Hs1, <- app_assoc. simpl.
      repeat split; try lia. intros Hnever. now rewrite (Hall Hnever). }
    destruct (list_documents W api_key (list_url_of app_num)) as [docs|];
      [|now apply Hnext].
    destruct (negb (truthy docs)); [now apply Hnext|].
    destruct (len docs); [|discriminate].
    destruct (iter docs) as [items|]; [|discriminate].
    pose proof (requests_run_docs app_num (path_join root_dir ("App_" +:+ app_num))
                  (list_url_of app_num) items (listed W api_key app_num d st))
      as [H1 H2].
    destruct (run_docs W api_key temp _ _ _ items _) as [st3|st3]; [|discriminate].
    apply Hnext; simpl in H1, H2; [now rewrite H1 | now rewrite H2].
Qed.

End ListRequests.



(** ** The value the resolver returns *)

Lemma lstrip_head s :
  lstrip s = EmptyString \/ exists c t, lstrip s = String c t /\ isspace c = false.
Proof.
  induction s as [|c s IH]; [now left|]. simpl.
  destruct (isspace c) eqn:E; [exact IH|]. right. now exists c, s.
Qed.

Lemma rstrip_idempotent s : rstrip (rstrip s) = rstrip s.
Proof.
  induction s as [|c s IH]; [reflexivity|]. simpl.
  destruct (isspace c && is_empty (rstrip s)) eqn:E; [reflexivity|].
  simpl. now rewrite IH, E.
Qed.

Lemma rstrip_cons c t :
  isspace c = false -> rstrip (String c t) = String c (rstrip t).
Proof. intros H. simpl. now rewrite H. Qed.

Lemma strip_idempotent s : strip (strip s) = strip s.
Proof.
  unfold strip. destruct (lstrip_head s) as [->|(c & t & -> & Hc)]; [reflexivity|].
  rewrite (rstrip_cons c t Hc). simpl lstrip. rewrite Hc.
  rewrite (rstrip_cons c (rstrip t) Hc). now rewrite rstrip_idempotent.
Qed.

Lemma all_chars_lstrip p s : all_chars p s = true -> all_chars p (lstrip s) = true.
Proof.
  induction s as [|c s IH]; [trivial|]. simpl.
  intros [Hc Hs]%andb_true_iff. destruct (isspace c); [now apply IH|].
  simpl. now rewrite Hc, Hs.
Qed.

Lemma all_chars_rstrip p s : all_chars p s = true -> all_chars p (rstrip s) = true.
Proof.
  induction s as [|c s IH]; [trivial|]. simpl.
  intros [Hc Hs]%andb_true_iff.
  destruct (isspace c && is_empty (rstrip s)); [reflexivity|].
  simpl. now rewrite Hc, IH.
Qed.

Lemma all_chars_split_head s : all_chars dot (split_head LF s) = true.
Proof.
  induction s as [|c s IH]; [reflexivity|]. simpl.
  destruct (Ascii.eqb c LF) eqn:E; [reflexivity|].
  simpl. unfold dot at 1. now rewrite E, IH.
Qed.

Lemma parse_location_search content :
  parse_location content = value_of (search_from LOCATION_RE None content).
Proof.
  unfold parse_location, search_group1.
  destruct (search_from LOCATION_RE None content) as [[|t|t]|]; reflexivity.
Qed.

(** X6. A value returned by the header parsing of [get_redirect_url] is
    already trimmed (no white space at either end, so no trailing carriage
    return) and holds no line feed. *)
Theorem parse_location_trimmed content v :
  parse_location content = Some v ->
  strip v = v /\ all_chars dot v = true.
Proof.
  rewrite parse_location_search, search_location.
  destruct (first_field None content) as [rest|]; [|discriminate].
  unfold field_value.
  destruct (negb (is_empty (lstrip rest))).
  - intros [= <-]. split; [apply strip_idempotent|].
    unfold strip. apply all_chars_rstrip, all_chars_lstrip, all_chars_split_head.
  - destruct (has_text rest); [|discriminate]. now intros [= <-].
Qed.

Lemma parse_location_trimmed_witness :
  strip "https://s3.example/doc1.pdf" = "https://s3.example/doc1.pdf" /\
  all_chars dot "https://s3.example/doc1.pdf" = true.
Proof.
  apply (parse_location_trimmed
           ("HTTP/1.1 302 Found" +:+ CRLF
            +:+ "location:   https://s3.example/doc1.pdf  " +:+ CRLF +:+ CRLF)).
  reflexivity.
Defined.

(** ** A header block made of lines *)



Lemma line_end_cons crlf rest :
  exists c y, line_end crlf +:+ rest = String c y /\ (c = CR \/ c = LF).
Proof.
  destruct crlf.
  - exists CR, (String LF rest). split; [reflexivity | now left].
  - exists LF, rest. split; [reflexivity | now right].
Qed.

Lemma strip_prefix_more p c y : forall x,
  all_chars (fun a => negb (Ascii.eqb a c)) p = true ->
  strip_prefix p x = None ->
  strip_prefix p (x +:+ String c y) = None.
Proof.
  induction p as [|a p IH]; intros x Hp; [discriminate|].
  simpl in Hp. apply andb_true_iff in Hp as [Ha Hp]. apply negb_true_iff in Ha.
  destruct x as [|b x].
  - intros _.
    change (strip_prefix (String a p) (EmptyString +:+ String c y))
      with (if Ascii.eqb c a then strip_prefix p y else None).
    now rewrite Ascii.eqb_sym, Ha.
  - change (String b x +:+ String c y) with (String b (x +:+ String c y)).
    simpl. destruct (Ascii.eqb b a); [now apply IH | trivial].
Qed.

Lemma field_name_at_bol p1 p2 s :
  at_bol p1 = at_bol p2 -> field_name_at p1 s = field_name_at p2 s.
Proof. unfold field_name_at. now intros ->. Qed.

(** A line that does not start with the field name does not start with it
    either when its line end and more text follow. *)
Lemma field_name_at_line prev l crlf rest :
  field_name_at prev l = None ->
  field_name_at prev (l +:+ line_end crlf +:+ rest) = None.
Proof.
  destruct (line_end_cons crlf rest) as (c & y & -> & Hc).
  unfold field_name_at. destruct (at_bol prev); [|trivial].
  destruct l as [|a l].
  - intros _. change (EmptyString +:+ String c y) with (String c y).
    cbv beta iota. now destruct Hc as [-> | ->].
  - change (String a l +:+ String c y) with (String a (l +:+ String c y)).
    cbv beta iota.
    destruct (Ascii.eqb a "L" || Ascii.eqb a "l"); [|trivial].
    apply strip_prefix_more. now destruct Hc as [-> | ->].
Qed.

Lemma first_field_cons prev c s :
  first_field prev (String c s) =
  match field_name_at prev (String c s) with
  | Some rest => Some rest
  | None => first_field (Some c) s
  end.
Proof. reflexivity. Qed.

Lemma field_name_at_not_bol prev s :
  at_bol prev = false -> field_name_at prev s = None.
Proof. unfold field_name_at. now intros ->. Qed.

Lemma dot_not_bol a : dot a = true -> at_bol (Some a) = false.
Proof. unfold dot. simpl. now intros H%negb_true_iff. Qed.

(** No field starts at a line end met inside a line. *)
Lemma first_field_line_end prev crlf rest :
  at_bol prev = false ->
  first_field prev (line_end crlf +:+ rest) = first_field (Some LF) rest.
Proof.
  intros Hprev. destruct crlf.
  - change (line_end true +:+ rest) with (String CR (String LF rest)).
    rewrite first_field_cons, (field_name_at_not_bol prev _ Hprev).
    rewrite first_field_cons, (field_name_at_not_bol (Some CR)); reflexivity.
  - change (line_end false +:+ rest) with (String LF rest).
    now rewrite first_field_cons, (field_name_at_not_bol prev _ Hprev).
Qed.

(** No field starts inside a line. *)
Lemma first_field_inside_line crlf l : forall prev rest,
  at_bol prev = false ->
  all_chars dot l = true ->
  first_field prev (l +:+ line_end crlf +:+ rest) = first_field (Some LF) rest.
Proof.
  induction l as [|a l IH]; intros prev rest Hprev Hl.
  - rewrite append_nil_l. now apply first_field_line_end.
  - rewrite append_cons.
    simpl in Hl. apply andb_true_iff in Hl as [Ha Hl].
    rewrite first_field_cons, (field_name_at_not_bol prev _ Hprev).
    apply IH; [now apply dot_not_bol | exact Hl].
Qed.

(** A line that is no Location field is passed over. *)
Lemma first_field_next_line crlf l prev rest :
  at_bol prev = true ->
  all_chars dot l = true ->
  field_name_at None l = None ->
  first_field prev (l +:+ line_end crlf +:+ rest) = first_field (Some LF) rest.
Proof.
  intros Hprev Hl Hname.
  assert (field_name_at prev (l +:+ line_end crlf +:+ rest) = None) as Hno.
  { apply field_name_at_line. now rewrite (field_name_at_bol prev None). }
  destruct l as [|a l].
  - rewrite append_nil_l in *. destruct crlf.
    + change (line_end true +:+ rest) with (String CR (String LF rest)) in *.
      rewrite first_field_cons, Hno.
      rewrite first_field_cons, (field_name_at_not_bol (Some CR)); reflexivity.
    + change (line_end false +:+ rest) with (String LF rest) in *.
      now rewrite first_field_cons, Hno.
  - rewrite append_cons in *.
    rewrite first_field_cons, Hno. simpl in Hl. apply andb_true_iff in Hl as [Ha Hl].
    apply first_field_inside_line; [now apply dot_not_bol | exact Hl].
Qed.

Lemma first_field_block crlf before rest_lines : forall prev,
  at_bol prev = true ->
  Forall (fun l => all_chars dot l = true /\ field_name_at None l = None) before ->
  exists prev',
    at_bol prev' = true /\
    first_field prev (header_block crlf (before ++ rest_lines))
    = first_field prev' (header_block crlf rest_lines).
Proof.
  induction before as [|l before IH]; intros prev Hprev Hall.
  - now exists prev.
  - inversion Hall as [|? ? [Hl Hname] Hrest]; subst.
    change (header_block crlf ((l :: before) ++ rest_lines))
      with (l +:+ line_end crlf +:+ header_block crlf (before ++ rest_lines)).
    rewrite (first_field_next_line crlf l prev _ Hprev Hl Hname).
    now apply IH.
Qed.

Lemma append_assoc (a b c : string) : (a +:+ b) +:+ c = a +:+ b +:+ c.
Proof.
  induction a as [|x a IH]; [reflexivity|].
  rewrite !append_cons. now rewrite IH.
Qed.

Lemma split_head_url crlf url rest :
  all_chars (fun x => negb (isspace x)) url = true ->
  split_head LF (url +:+ line_end crlf +:+ rest) = url +:+ line_end_rest crlf.
Proof.
  induction url as [|a u IH].
  - intros _. now destruct crlf.
  - intros H. simpl in H. apply andb_true_iff in H as [Ha Hu].
    rewrite !append_cons.
    simpl split_head. destruct (Ascii.eqb a LF) eqn:E.
    + apply Ascii.eqb_eq in E. subst a. discriminate Ha.
    + now rewrite IH.
Qed.

Lemma rstrip_url crlf url :
  all_chars (fun x => negb (isspace x)) url = true ->
  rstrip (url +:+ line_end_rest crlf) = url.
Proof.
  induction url as [|a u IH].
  - intros _. now destruct crlf.
  - intros H. simpl in H. apply andb_true_iff in H as [Ha Hu].
    apply negb_true_iff in Ha.
    rewrite append_cons, (rstrip_cons a _ Ha). now rewrite IH.
Qed.

(** The value of a field line [name: url]. *)
Lemma field_value_url crlf url rest :
  is_empty url = false ->
  all_chars (fun x => negb (isspace x)) url = true ->
  field_value (" " +:+ url +:+ line_end crlf +:+ rest) = Some url.
Proof.
  intros Hne Hurl. destruct url as [|a u]; [discriminate|].
  pose proof Hurl as Hurl'. simpl in Hurl'.
  apply andb_true_iff in Hurl' as [Ha _]. apply negb_true_iff in Ha.
  unfold field_value.
  change (" " +:+ String a u +:+ line_end crlf +:+ rest)
    with (String " " (String a (u +:+ line_end crlf +:+ rest))).
  simpl lstrip. rewrite Ha. simpl is_empty. simpl negb. cbv iota.
  rewrite <- append_cons.
  rewrite (split_head_url crlf (String a u) rest Hurl). unfold strip.
  rewrite append_cons.
  simpl lstrip. rewrite Ha.
  rewrite <- append_cons.
  now rewrite (rstrip_url crlf (String a u) Hurl).
Qed.

(** The first field of a block that starts with a Location line. *)
Lemma first_field_named prev name value rest :
  at_bol prev = true ->
  name = "Location" \/ name = "location" ->
  first_field prev ((name +:+ ": " +:+ value) +:+ rest)
  = Some (" " +:+ value +:+ rest).
Proof.
  intros Hprev Hname. rewrite !append_assoc.
  destruct Hname as [-> | ->];
    match goal with
    | |- first_field _ (?n +:+ ": " +:+ ?r) = _ =>
        change (n +:+ ": " +:+ r)
          with (String (match n with String c _ => c | _ => " "%char end)
                  ("ocation:" +:+ " " +:+ r))
    end;
    rewrite first_field_cons; unfold field_name_at; rewrite Hprev; reflexivity.
Qed.

(** X7. In a block of lines, ended by CR LF as [curl] writes them or by LF
    alone, when the lines before the first [Location: url] (or
    [location: url]) line hold no line feed and do not start with that field
    name, and the URL is not empty and holds no white space, the resolver's
    parsing returns exactly that URL, whatever lines follow. *)
Theorem parse_location_of_block crlf name before url after :
  name = "Location" \/ name = "location" ->
  Forall (fun l => all_chars dot l = true /\ field_name_at None l = None) before ->
  is_empty url = false ->
  all_chars (fun x => negb (isspace x)) url = true ->
  parse_location (header_block crlf (before ++ (name +:+ ": " +:+ url) :: after))
  = Some url.
Proof.
  intros Hname Hbefore Hne Hurl.
  rewrite parse_location_search, search_location.
  destruct (first_field_block crlf before ((name +:+ ": " +:+ url) :: after) None
              eq_refl Hbefore) as (prev & Hprev & ->).
  change (header_block crlf ((name +:+ ": " +:+ url) :: after))
    with ((name +:+ ": " +:+ url) +:+ line_end crlf +:+ header_block crlf after).
  rewrite (first_field_named prev name url _ Hprev Hname).
  now apply field_value_url.
Qed.

Lemma parse_location_of_block_witness :
  parse_location
    (header_block true (["HTTP/2 302"; "server: AmazonS3"; "x-location: none"]
                        ++ ("location" +:+ ": " +:+ "https://s3.example/doc1.pdf")
                        :: ["content-length: 0"; ""]))
  = Some "https://s3.example/doc1.pdf".
Proof.
  apply (parse_location_of_block true "location"
           ["HTTP/2 302"; "server: AmazonS3"; "x-location: none"]
           "https://s3.example/doc1.pdf" ["content-length: 0"; ""]).
  - now right.
  - repeat constructor.
  - reflexivity.
  - reflexivity.
Defined.


Lemma all_chars_app p (a b : string) :
  all_chars p (a +:+ b) = all_chars p a && all_chars p b.
Proof.
  induction a as [|x a IH]; [reflexivity|].
  rewrite append_cons. simpl. now rewrite IH, andb_assoc.
Qed.



(** ** The files a run reports as saved *)

Lemma last_char_app a b :
  b <> EmptyString -> last_char (a +:+ b) = last_char b.
Proof.
  intros Hb. induction a as [|c a IH]; [reflexivity|].
  rewrite append_cons. simpl. rewrite IH.
  destruct b as [|x b]; [contradiction|].
  simpl. now destruct (last_char b).
Qed.

Lemma last_char_path_join a b :
  b <> EmptyString -> last_char (path_join a b) = last_char b.
Proof.
  intros Hb. unfold path_join.
  destruct b as [|x b]; [contradiction|].
  assert (last_char (if is_empty a then String x b
                     else if String.eqb (String.substring (String.length a - 1) 1 a) "/"
                          then a +:+ String x b else a +:+ "/" +:+ String x b)
          = last_char (String x b)) as H.
  { destruct (is_empty a); [reflexivity|].
    destruct (String.eqb _ "/"); rewrite ?last_char_app; trivial; discriminate. }
  destruct x as [[] [] [] [] [] [] [] []]; first [exact H | reflexivity].
Qed.

Lemma doc_filename_pdf W app_num doc doc_id filename :
  doc_filename W app_num doc = Ret (doc_id, filename) ->
  filename <> EmptyString /\ last_char filename = Some "f"%char.
Proof.
  unfold doc_filename.
  destruct (get doc "documentIdentifier" PyNone) as [i|]; [|discriminate].
  destruct (get doc "documentCode" (PyStr "DOC")) as [c|]; [|discriminate].
  destruct (get doc "officialDate" (PyStr "nodate")) as [o|]; [|discriminate].
  simpl.
  destruct (str_method (split_head "T") o) as [date|]; [|discriminate].
  simpl. intros [= _ <-].
  rewrite <- !append_assoc. split.
  - intros E.
    assert (last_char (((((((app_num +:+ "_") +:+ date) +:+ "_") +:+ fmt W c) +:+ "_")
                        +:+ fmt W i) +:+ ".pdf") = None) as H by now rewrite E.
    rewrite last_char_app in H; discriminate.
  - now rewrite last_char_app.
Qed.

Lemma saved_count_paths t : saved_count t = length (saved_paths t).
Proof.
  unfold saved_count. induction t as [|e t IH]; [reflexivity|].
  destruct e as [| | |url out key rc valid]; simpl; trivial.
  destruct (rc && valid); simpl; now rewrite IH.
Qed.

Section SavedOnDisk.

Variable W : World.
Variable api_key : string.
Variable temp : string.

Hypothesis Htemp : last_char temp = Some "t"%char.

(** A step that adds no saved download and leaves the saved files alone. *)
Lemma on_disk_frame st st' :
  on_disk st ->
  saved_paths (trace st') = saved_paths (trace st) ->
  (forall p, In p (saved_paths (trace st)) -> fs st' !! p = fs st !! p) ->
  on_disk st'.
Proof.
  intros [Hnd Hall] Ht Hfs. unfold on_disk. rewrite Ht. split; [exact Hnd|].
  rewrite List.Forall_forall in *. intros p Hin.
  destruct (Hall p Hin) as [Hl Hv]. split; [exact Hl|].
  now rewrite (verify_pdf_lookup (fs st') (fs st) p (Hfs p Hin)).
Qed.

Lemma on_disk_valid st p :
  on_disk st -> In p (saved_paths (trace st)) ->
  verify_pdf (fs st) p = true /\ p <> temp.
Proof.
  intros [_ Hall] Hin. rewrite List.Forall_forall in Hall.
  destruct (Hall p Hin) as [Hl Hv]. split; [exact Hv|].
  intros ->. rewrite Htemp in Hl. discriminate Hl.
Qed.

Lemma on_disk_download url filepath use_key key st :
  on_disk st ->
  last_char filepath = Some "f"%char ->
  ~ In filepath (saved_paths (trace st)) ->
  on_disk (download_and_count W url filepath use_key key st).
Proof.
  intros Hst Hl Hnew. unfold download_and_count.
  pose proof (fun p Hne => download_final_frame W url filepath use_key key (fs st) p Hne)
    as Hf.
  destruct (download_final W url filepath use_key key (fs st)) as [rc d].
  simpl in Hf.
  assert (forall p, In p (saved_paths (trace st)) -> d !! p = fs st !! p) as Hold.
  { intros p Hin. apply Hf. intros ->. now apply Hnew. }
  destruct rc; [destruct (verify_pdf d filepath) eqn:Hv|].
  - destruct Hst as [Hnd Hall]. unfold on_disk. simpl. split.
    + now constructor.
    + constructor; [now split|].
      rewrite List.Forall_forall in *. intros p Hin.
      destruct (Hall p Hin) as [Hlp Hvp]. split; [exact Hlp|].
      now rewrite (verify_pdf_lookup d (fs st) p (Hold p Hin)).
  - apply (on_disk_frame st); [exact Hst | reflexivity | exact Hold].
  - apply (on_disk_frame st); [exact Hst | reflexivity | exact Hold].
Qed.

Lemma on_disk_process_doc app_num app_folder list_url doc st :
  on_disk st ->
  on_disk (state_of (process_doc W api_key temp app_num app_folder list_url doc st)).
Proof.
  intros Hst. unfold process_doc.
  destruct (doc_filename W app_num doc) as [[doc_id filename]|] eqn:Hname; [|exact Hst].
  destruct (doc_filename_pdf W app_num doc doc_id filename Hname) as [Hne Hlast].
  set (filepath := path_join app_folder filename).
  assert (last_char filepath = Some "f"%char) as Hl
    by (unfold filepath; now rewrite last_char_path_join).
  destruct (path_exists (fs st) filepath && verify_pdf (fs st) filepath) eqn:Hskip;
    [exact Hst|].
  assert (~ In filepath (saved_paths (trace st))) as Hnew.
  { intros Hin. destruct (on_disk_valid st filepath Hst Hin) as [Hv _].
    now rewrite Hv, (verify_pdf_exists _ _ Hv) in Hskip. }
  set (st1 := if path_exists (fs st) filepath then remove_corrupt filepath st else st).
  assert (on_disk st1 /\ saved_paths (trace st1) = saved_paths (trace st)) as [H1 Ht1].
  { unfold st1. destruct (path_exists (fs st) filepath); [|now split].
    unfold remove_corrupt, remove. destruct (fs st !! filepath) as [f|]; [|now split].
    destruct (removable f); [|now split].
    split; [|reflexivity].
    apply (on_disk_frame st); [exact Hst | reflexivity|].
    intros p Hin. simpl. apply lookup_delete_ne. intros ->. now apply Hnew. }
  destruct (resolve_url W list_url doc doc_id) as [official_url|]; [|exact H1].
  unfold fetch_document.
  destruct (get_redirect_url W official_url api_key temp (fs st1))
    as [[d1 s3_url]|] eqn:E; [|exact H1].
  assert (on_disk (log (EvProbe official_url api_key) (set_fs d1 st1))) as H2.
  { apply (on_disk_frame st1); [exact H1 | reflexivity|].
    intros p Hin. simpl.
    apply (get_redirect_url_frame _ _ _ _ _ _ _ E).
    now apply (on_disk_valid st1 p H1 Hin). }
  assert (~ In filepath
            (saved_paths (trace (log (EvProbe official_url api_key) (set_fs d1 st1)))))
    as Hnew2 by (simpl; now rewrite Ht1).
  destruct s3_url as [s3|]; [destruct (is_empty s3)|]; simpl;
    now apply on_disk_download.
Qed.

Lemma on_disk_run_docs app_num app_folder list_url docs : forall st,
  on_disk st ->
  on_disk (state_of (run_docs W api_key temp app_num app_folder list_url docs st)).
Proof.
  induction docs as [|doc rest IH]; intros st H; [exact H|].
  rewrite run_docs_cons. destruct (stop_flag W (reads st)); [exact H|].
  pose proof (on_disk_process_doc app_num app_folder list_url doc
                (snd (read_stop W st)) H) as H1.
  destruct (process_doc W api_key temp app_num app_folder list_url doc _);
    [now apply IH | exact H1].
Qed.

Lemma on_disk_run_apps root_dir apps : forall st,
  on_disk st ->
  on_disk (state_of (run_apps W api_key temp root_dir apps st)).
Proof.
  induction apps as [|app_num rest IH]; intros st H; [exact H|].
  rewrite run_apps_cons. destruct (stop_flag W (reads st)); [exact H|].
  destruct (ensure_folder W _ (fs st)) as [d|] eqn:E; [|exact H].
  assert (on_disk (listed W api_key app_num d st)) as Hl.
  { apply (on_disk_frame st); [exact H | reflexivity|].
    intros p Hin. change (d !! p = fs st !! p).
    destruct (on_disk_valid st _ H Hin) as [Hv _]. revert E.
    generalize (path_join root_dir ("App_" +:+ app_num)). intros folder.
    unfold ensure_folder.
    destruct (path_exists (fs st) folder) eqn:Hex; [now intros [= <-]|].
    destruct (makedirs_fails W folder); [discriminate|].
    intros [= <-]. apply lookup_insert_ne. intros <-.
    now rewrite (verify_pdf_exists _ _ Hv) in Hex. }
  destruct (list_documents W api_key (list_url_of app_num)) as [docs|];
    [|now apply IH].
  destruct (negb (truthy docs)); [now apply IH|].
  destruct (len docs); [|exact Hl].
  destruct (iter docs) as [items|]; [|exact Hl].
  pose proof (on_disk_run_docs app_num (path_join root_dir ("App_" +:+ app_num))
                (list_url_of app_num) items _ Hl) as H1.
  destruct (run_docs W api_key temp _ _ _ items _); [now apply IH | exact H1].
Qed.

Lemma on_disk_cleanup st :
  on_disk st ->
  match cleanup temp st with
  | Finished s | Crashed s => on_disk s
  | _ => True
  end.
Proof.
  intros H. unfold cleanup, remove.
  destruct (path_exists (fs st) temp); [|exact H].
  destruct (fs st !! temp) as [f|]; [|exact H].
  destruct (removable f); [|exact H].
  apply (on_disk_frame st); [exact H | reflexivity|].
  intros p Hin. simpl. apply lookup_delete_ne. intros <-.
  now destruct (on_disk_valid st _ H Hin).
Qed.

End SavedOnDisk.

(** X9. However a run ends, the downloads it counted as saved went to
    pairwise distinct paths, each of these files is on the disk at the end
    and passes [verify_pdf], and when the run finishes the number it reports
    is the number of these files. *)
Theorem saved_files_on_disk W entry_key txt_list chosen_dir d :
  match run_process W entry_key txt_list chosen_dir d with
  | Finished st | Crashed st =>
      List.NoDup (saved_paths (trace st)) /\
      Forall (fun p => verify_pdf (fs st) p = true) (saved_paths (trace st)) /\
      length (saved_paths (trace st)) = success_count st
  | _ => True
  end.
Proof.
  unfold run_process.
  destruct (is_empty (strip entry_key)); [exact I|].
  destruct (app_numbers_of (strip txt_list)) as [|a apps]; [exact I|].
  destruct (is_empty chosen_dir); [exact I|].
  set (temp := path_join chosen_dir "temp_headers_debug.txt").
  assert (last_char temp = Some "t"%char) as Htemp
    by (unfold temp; now rewrite last_char_path_join).
  assert (on_disk (initial_state d)) as H0 by (split; constructor).
  pose proof (on_disk_run_apps W (strip entry_key) temp Htemp chosen_dir (a :: apps)
                (initial_state d) H0) as H.
  pose proof (counted_run_apps W (strip entry_key) temp chosen_dir (a :: apps)
                (initial_state d) eq_refl) as Hc.
  assert (forall st, on_disk st -> counted st ->
            List.NoDup (saved_paths (trace st)) /\
            Forall (fun p => verify_pdf (fs st) p = true) (saved_paths (trace st)) /\
            length (saved_paths (trace st)) = success_count st) as Hend.
  { intros st [Hnd Hall] Hcount. split; [exact Hnd|]. split.
    - eapply List.Forall_impl; [|exact Hall]. now intros p [_ Hv].
    - unfold counted in Hcount. now rewrite Hcount, saved_count_paths. }
  destruct (run_apps W _ _ _ _ _) as [st|st]; [|now apply Hend].
  pose proof (on_disk_cleanup temp Htemp st H) as H1.
  unfold cleanup in *.
  destruct (path_exists (fs st) temp); [|now apply Hend].
  destruct (remove (fs st) temp); now apply Hend.
Qed.

(** ** The redirect probe and the scratch file *)

Lemma get_redirect_url_scratch W url api_key temp d d' r :
  get_redirect_url W url api_key temp d = Ret (d', r) ->
  d' !! temp = scratch_after W url api_key.
Proof.
  unfold get_redirect_url.
  assert (forall d1,
            (if path_exists d temp then remove d temp else Ret d) = Ret d1 ->
            d1 !! temp = None) as Hclean.
  { intros d1. unfold path_exists, remove.
    destruct (d !! temp) as [f|] eqn:E.
    - destruct (removable f); [|discriminate]. intros [= <-]. apply lookup_delete_eq.
    - now intros [= <-]. }
  destruct (if path_exists d temp then remove d temp else Ret d) as [d1|];
    [|discriminate].
  specialize (Hclean d1 eq_refl). simpl.
  destruct url as [| | |u| |]; try (intros [= <- _]; exact Hclean).
  unfold scratch_after.
  destruct (curl_headers W u api_key) as [h|]; simpl.
  - rewrite path_exists_insert. simpl. intros [= <- _]. apply lookup_insert_eq.
  - destruct (negb (path_exists d1 temp)); intros [= <- _]; exact Hclean.
Qed.

(** X10. A call of [get_redirect_url] that returns never answers from a
    header file left behind by an earlier call or an earlier run: on any two
    disks the same request gives the same answer and leaves the same scratch
    file. *)
Theorem get_redirect_url_fresh W url api_key temp d1 d2 e1 e2 r1 r2 :
  get_redirect_url W url api_key temp d1 = Ret (e1, r1) ->
  get_redirect_url W url api_key temp d2 = Ret (e2, r2) ->
  r1 = r2 /\ e1 !! temp = e2 !! temp.
Proof.
  intros H1 H2. split.
  - rewrite (get_redirect_url_value _ _ _ _ _ _ _ H1).
    now rewrite (get_redirect_url_value _ _ _ _ _ _ _ H2).
  - rewrite (get_redirect_url_scratch _ _ _ _ _ _ _ H1).
    now rewrite (get_redirect_url_scratch _ _ _ _ _ _ _ H2).
Qed.

Lemma get_redirect_url_fresh_witness :
  get_redirect_url two_documents_world (PyStr "https://nowhere.example/x") "KEY"
    "/out/temp_headers_debug.txt" stale_scratch_disk = Ret (∅, None) /\
  get_redirect_url two_documents_world (PyStr "https://nowhere.example/x") "KEY"
    "/out/temp_headers_debug.txt" ∅ = Ret (∅, None) /\
  (None : option string) = None /\
  (∅ : gmap string file) !! "/out/temp_headers_debug.txt"
  = (∅ : gmap string file) !! "/out/temp_headers_debug.txt".
Proof.
  assert (get_redirect_url two_documents_world (PyStr "https://nowhere.example/x")
            "KEY" "/out/temp_headers_debug.txt" stale_scratch_disk = Ret (∅, None))
    as H1 by (vm_compute; reflexivity).
  assert (get_redirect_url two_documents_world (PyStr "https://nowhere.example/x")
            "KEY" "/out/temp_headers_debug.txt" ∅ = Ret (∅, None))
    as H2 by (vm_compute; reflexivity).
  split; [exact H1|]. split; [exact H2|].
  exact (get_redirect_url_fresh _ _ _ _ _ _ _ _ _ _ H1 H2).
Defined.

(** ** The two forms of a list response *)

Lemma assoc_app_none k a b :
  assoc k a = None -> assoc k (a ++ b)%list = assoc k b.
Proof.
  induction a as [|[k' v] a IH]; [reflexivity|].
  simpl. destruct (String.eqb k k'); [discriminate | exact IH].
Qed.

Section ListForms.

Variable W : World.
Variable others : list (string * pyval).
Variable api_key : string.
Variable temp : string.

Hypothesis Hothers : assoc "documentBag" others = None.

Lemma list_documents_in_bag list_url :
  list_documents (answering_in_bag others W) api_key list_url
  = list_documents W api_key list_url.
Proof.
  unfold list_documents. simpl.
  destruct (list_endpoint W list_url api_key) as [data|]; [|reflexivity].
  destruct data; try reflexivity.
  simpl. now rewrite (assoc_app_none _ _ _ Hothers).
Qed.

Lemma process_doc_in_bag app_num app_folder list_url doc st :
  process_doc (answering_in_bag others W) api_key temp app_num app_folder list_url doc st
  = process_doc W api_key temp app_num app_folder list_url doc st.
Proof. reflexivity. Qed.

Lemma run_docs_in_bag app_num app_folder list_url docs : forall st,
  run_docs (answering_in_bag others W) api_key temp app_num app_folder list_url docs st
  = run_docs W api_key temp app_num app_folder list_url docs st.
Proof.
  induction docs as [|doc rest IH]; intros st; [reflexivity|].
  rewrite !run_docs_cons. rewrite process_doc_in_bag.
  change (stop_flag (answering_in_bag others W)) with (stop_flag W).
  destruct (stop_flag W (reads st)); [reflexivity|].
  change (read_stop (answering_in_bag others W) st) with (read_stop W st).
  destruct (process_doc W api_key temp app_num app_folder list_url doc _);
    [apply IH | reflexivity].
Qed.

Lemma run_apps_in_bag root_dir apps : forall st,
  run_apps (answering_in_bag others W) api_key temp root_dir apps st
  = run_apps W api_key temp root_dir apps st.
Proof.
  induction apps as [|app_num rest IH]; intros st; [reflexivity|].
  rewrite !run_apps_cons. rewrite list_documents_in_bag.
  change (stop_flag (answering_in_bag others W)) with (stop_flag W).
  destruct (stop_flag W (reads st)); [reflexivity|].
  change (read_stop (answering_in_bag others W) st) with (read_stop W st).
  change (ensure_folder (answering_in_bag others W)) with (ensure_folder W).
  destruct (ensure_folder W _ (fs st)) as [d|]; [|reflexivity].
  change (listed (answering_in_bag others W)) with (listed W).
  destruct (list_documents W api_key (list_url_of app_num)) as [docs|]; [|apply IH].
  destruct (negb (truthy docs)); [apply IH|].
  destruct (len docs); [|reflexivity].
  destruct (iter docs) as [items|]; [|reflexivity].
  rewrite run_docs_in_bag.
  destruct (run_docs W api_key temp _ _ _ items _); [apply IH | reflexivity].
Qed.

End ListForms.

(** X11. The two forms of the list response give the same run: when the
    endpoint answers with an object that holds the documents under
    [documentBag], whatever other fields come with it, the run is the one of
    the endpoint answering with the bare array. *)
Theorem run_process_in_bag W others entry_key txt_list chosen_dir d :
  assoc "documentBag" others = None ->
  run_process (answering_in_bag others W) entry_key txt_list chosen_dir d
  = run_process W entry_key txt_list chosen_dir d.
Proof.
  intros Hothers. unfold run_process.
  destruct (is_empty (strip entry_key)); [reflexivity|].
  destruct (app_numbers_of (strip txt_list)) as [|a apps]; [reflexivity|].
  destruct (is_empty chosen_dir); [reflexivity|].
  now rewrite (run_apps_in_bag W others (strip entry_key) _ Hothers).
Qed.

Lemma run_process_in_bag_witness :
  run_process (answering_in_bag [("count", PyInt 2)] two_documents_world)
    "KEY" "17123456" "/out" ∅
  = run_process two_documents_world "KEY" "17123456" "/out" ∅.
Proof.
  apply (run_process_in_bag two_documents_world [("count", PyInt 2)]).
  reflexivity.
Defined.

(** ** The disk a finished run leaves: folders and scratch file *)

Lemma ends_with_slash a :
  String.eqb (String.substring (String.length a - 1) 1 a) "/"
  = match last_char a with Some c => Ascii.eqb c "/" | None => false end.
Proof.
  induction a as [|c a IH]; [reflexivity|].
  destruct a as [|c' a'].
  - simpl. destruct (Ascii.eqb c "/"); reflexivity.
  - change (String.length (String c (String c' a')) - 1)
      with (S (String.length a') - 0).
    rewrite Nat.sub_0_r.
    change (String.substring (S (String.length a')) 1 (String c (String c' a')))
      with (String.substring (String.length a') 1 (String c' a')).
    change (String.length (String c' a') - 1) with (String.length a' - 0) in IH.
    rewrite Nat.sub_0_r in IH. rewrite IH.
    change (last_char (String c (String c' a')))
      with (match last_char (String c' a') with None => Some c | Some l => Some l end).
    destruct (last_char (String c' a')) eqn:E; [reflexivity|].
    simpl in E. destruct (last_char a'); discriminate.
Qed.

(** [os.path.join] with a second part that is not absolute. *)
Lemma path_join_relative a b :
  (forall b', b <> String "/" b') ->
  path_join a b =
  if is_empty a then b
  else if String.eqb (String.substring (String.length a - 1) 1 a) "/" then a +:+ b
       else a +:+ "/" +:+ b.
Proof.
  intros Hb. unfold path_join. destruct b as [|x b]; [reflexivity|].
  destruct x as [[] [] [] [] [] [] [] []]; try reflexivity.
  now destruct (Hb b).
Qed.

Lemma path_join_prefix a b :
  (forall b', b <> String "/" b') -> path_join a b = join_prefix a +:+ b.
Proof.
  intros Hb. rewrite (path_join_relative a b Hb). unfold join_prefix.
  destruct (is_empty a); [reflexivity|].
  destruct (String.eqb _ "/"); [reflexivity|]. now rewrite append_assoc.
Qed.

Lemma is_empty_app a b : is_empty (a +:+ b) = is_empty a && is_empty b.
Proof. destruct a; reflexivity. Qed.

Lemma app_char_not_slash a c :
  all_chars app_char a = true -> last_char a = Some c -> Ascii.eqb c "/" = false.
Proof.
  induction a as [|x a IH]; [discriminate|].
  simpl. intros [Hx Ha]%andb_true_iff.
  destruct (last_char a) as [l|] eqn:E.
  - intros [= <-]. now apply IH.
  - intros [= <-]. unfold app_char in Hx.
    apply andb_true_iff in Hx as [_ Hx]. now apply negb_true_iff in Hx.
Qed.

Lemma doc_filename_prefix W app_num doc doc_id filename :
  doc_filename W app_num doc = Ret (doc_id, filename) ->
  exists rest, filename = app_num +:+ "_" +:+ rest.
Proof.
  unfold doc_filename.
  destruct (get doc "documentIdentifier" PyNone) as [i|]; [|discriminate].
  destruct (get doc "documentCode" (PyStr "DOC")) as [c|]; [|discriminate].
  destruct (get doc "officialDate" (PyStr "nodate")) as [o|]; [|discriminate].
  simpl.
  destruct (str_method (split_head "T") o) as [date|]; [|discriminate].
  simpl. intros [= _ <-]. now eexists.
Qed.

(** The folder of one application is never the target file of a document
    of another, or of its own. *)
Lemma folder_not_target root_dir a1 a2 rest :
  all_chars app_char a1 = true ->
  all_chars app_char a2 = true ->
  path_join root_dir ("App_" +:+ a2)
  <> path_join (path_join root_dir ("App_" +:+ a1)) (a1 +:+ "_" +:+ rest).
Proof.
  intros H1 H2.
  assert (forall a b', "App_" +:+ a <> String "/" b') as Hrel by discriminate.
  rewrite !(path_join_prefix root_dir _ (Hrel _)).
  assert (forall b', a1 +:+ "_" +:+ rest <> String "/" b') as Hfn.
  { intros b'. destruct a1 as [|x a1]; [discriminate|].
    rewrite append_cons. intros [= -> _].
    change (all_chars app_char (String "/" a1))
      with (false && all_chars app_char a1) in H1.
    discriminate H1. }
  rewrite (path_join_relative _ _ Hfn).
  rewrite !is_empty_app. change (is_empty "App_") with false.
  rewrite andb_false_r. simpl andb. cbv iota.
  rewrite ends_with_slash.
  assert (match last_char (join_prefix root_dir +:+ "App_" +:+ a1) with
          | Some c => Ascii.eqb c "/"
          | None => false
          end = false) as ->.
  { rewrite <- append_assoc.
    destruct a1 as [|x a1].
    - rewrite append_empty_r, last_char_app by discriminate. reflexivity.
    - rewrite last_char_app by discriminate.
      destruct (last_char (String x a1)) as [c|] eqn:E; [|reflexivity].
      now apply (app_char_not_slash (String x a1)). }
  rewrite !append_assoc. intros E.
  apply append_inv_head in E. apply (append_inv_head "App_") in E.
  rewrite E, !all_chars_app in H2.
  change (all_chars app_char ("/" +:+ a1 +:+ "_" +:+ rest)) with
    (app_char "/" && all_chars app_char (a1 +:+ "_" +:+ rest)) in H2.
  change (app_char "/") with false in H2.
  rewrite andb_false_l, andb_false_r in H2. discriminate H2.
Qed.

Lemma app_numbers_app_chars raw_list :
  Forall (fun a => all_chars app_char a = true) (app_numbers_of raw_list).
Proof.
  rewrite app_numbers_of_split. apply Forall_map. unfold split.
  pose proof (split_from_tokens (replace "," " " (replace LF " " raw_list))
                EmptyString eq_refl (replace_comma_by_space _)) as H.
  induction H as [|t ts [Ht _] _ IH]; constructor; [|exact IH].
  now apply replace_slash_app_char.
Qed.

Section PathsKept.

Variable W : World.
Variable api_key : string.
Variable temp : string.
Variable q : string.

Hypothesis Hq : q <> temp.

Lemma exists_insert (d : gmap string file) p f :
  path_exists d q = true -> path_exists (<[p := f]> d) q = true.
Proof.
  unfold path_exists. destruct (decide (p = q)) as [->|Hne].
  - now rewrite lookup_insert_eq.
  - now rewrite lookup_insert_ne.
Qed.

Lemma exists_download url filepath use_key key st :
  path_exists (fs st) q = true ->
  path_exists (fs (download_and_count W url filepath use_key key st)) q = true.
Proof.
  intros H. unfold download_and_count, download_final.
  destruct url as [| | |u| |]; try exact H.
  destruct (curl_download W u (key_header use_key key)) as [rc [b|]].
  - assert (path_exists (<[filepath := regular b]> (fs st)) q = true) as H1
      by now apply exists_insert.
    destruct rc; [destruct (verify_pdf _ filepath)|]; exact H1.
  - destruct rc; [destruct (verify_pdf _ filepath)|]; exact H.
Qed.

Lemma exists_probe url d d' r :
  get_redirect_url W url api_key temp d = Ret (d', r) ->
  path_exists d q = true -> path_exists d' q = true.
Proof.
  intros E. unfold path_exists.
  now rewrite (get_redirect_url_frame _ _ _ _ _ _ _ E q Hq).
Qed.

Lemma exists_process_doc app_num app_folder list_url doc st :
  (forall doc_id filename,
     doc_filename W app_num doc = Ret (doc_id, filename) ->
     q <> path_join app_folder filename) ->
  path_exists (fs st) q = true ->
  path_exists
    (fs (state_of (process_doc W api_key temp app_num app_folder list_url doc st))) q
  = true.
Proof.
  intros Htarget H. unfold process_doc.
  destruct (doc_filename W app_num doc) as [[doc_id filename]|] eqn:Hname; [|exact H].
  specialize (Htarget doc_id filename eq_refl).
  set (filepath := path_join app_folder filename) in *.
  destruct (path_exists (fs st) filepath && verify_pdf (fs st) filepath); [exact H|].
  set (st1 := if path_exists (fs st) filepath then remove_corrupt filepath st else st).
  assert (path_exists (fs st1) q = true) as H1.
  { unfold st1. destruct (path_exists (fs st) filepath); [|exact H].
    unfold remove_corrupt, remove. destruct (fs st !! filepath) as [f|]; [|exact H].
    destruct (removable f); [|exact H].
    unfold path_exists in *. cbn [log set_fs fs].
    now rewrite lookup_delete_ne by congruence. }
  destruct (resolve_url W list_url doc doc_id) as [official_url|]; [|exact H1].
  unfold fetch_document.
  destruct (get_redirect_url W official_url api_key temp (fs st1))
    as [[d1 s3_url]|] eqn:E; [|exact H1].
  pose proof (exists_probe _ _ _ _ E H1) as H2.
  destruct s3_url as [s3|]; [destruct (is_empty s3)|]; simpl;
    now apply exists_download.
Qed.

Lemma exists_run_docs app_num app_folder list_url docs :
  (forall doc doc_id filename,
     doc_filename W app_num doc = Ret (doc_id, filename) ->
     q <> path_join app_folder filename) ->
  forall st,
  path_exists (fs st) q = true ->
  path_exists
    (fs (state_of (run_docs W api_key temp app_num app_folder list_url docs st))) q
  = true.
Proof.
  intros Htarget. induction docs as [|doc rest IH]; intros st H; [exact H|].
  rewrite run_docs_cons. destruct (stop_flag W (reads st)); [exact H|].
  pose proof (exists_process_doc app_num app_folder list_url doc
                (snd (read_stop W st)) (Htarget doc) H) as H1.
  destruct (process_doc W api_key temp app_num app_folder list_url doc _);
    [now apply IH | exact H1].
Qed.

Lemma exists_run_apps root_dir apps :
  Forall (fun a => forall doc doc_id filename,
            doc_filename W a doc = Ret (doc_id, filename) ->
            q <> path_join (path_join root_dir ("App_" +:+ a)) filename) apps ->
  forall st,
  path_exists (fs st) q = true ->
  path_exists (fs (state_of (run_apps W api_key temp root_dir apps st))) q = true.
Proof.
  induction 1 as [|app_num rest Ha _ IH]; intros st H; [exact H|].
  rewrite run_apps_cons. destruct (stop_flag W (reads st)); [exact H|].
  destruct (ensure_folder W _ (fs st)) as [d|] eqn:E; [|exact H].
  assert (path_exists (fs (listed W api_key app_num d st)) q = true) as Hl.
  { change (path_exists d q = true). revert E.
    generalize (path_join root_dir ("App_" +:+ app_num)). intros folder.
    unfold ensure_folder. destruct (path_exists (fs st) folder); [now intros [= <-]|].
    destruct (makedirs_fails W folder); [discriminate|].
    intros [= <-]. now apply exists_insert. }
  destruct (list_documents W api_key (list_url_of app_num)) as [docs|];
    [|now apply IH].
  destruct (negb (truthy docs)); [now apply IH|].
  destruct (len docs); [|exact Hl].
  destruct (iter docs) as [items|]; [|exact Hl].
  pose proof (exists_run_docs app_num (path_join root_dir ("App_" +:+ app_num))
                (list_url_of app_num) items Ha _ Hl) as H1.
  destruct (run_docs W api_key temp _ _ _ items _); [now apply IH | exact H1].
Qed.

End PathsKept.

(** The folder of an application number is no target file of the
    applications of a list. *)
Lemma folder_protected W root_dir a apps :
  all_chars app_char a = true ->
  Forall (fun a' => all_chars app_char a' = true) apps ->
  Forall (fun a' => forall doc doc_id filename,
            doc_filename W a' doc = Ret (doc_id, filename) ->
            path_join root_dir ("App_" +:+ a)
            <> path_join (path_join root_dir ("App_" +:+ a')) filename) apps.
Proof.
  intros Ha Happs. eapply List.Forall_impl; [|exact Happs].
  intros a' Ha' doc doc_id filename Hname.
  destruct (doc_filename_prefix _ _ _ _ _ Hname) as [rest ->].
  now apply folder_not_target.
Qed.

(** The loop over the applications leaves the folder of every application
    it counted. *)
Lemma folders_run_apps W api_key root_dir apps : forall st st',
  Forall (fun a => all_chars app_char a = true) apps ->
  run_apps W api_key (path_join root_dir "temp_headers_debug.txt") root_dir apps st
  = Done st' ->
  Forall (fun a => path_exists (fs st') (path_join root_dir ("App_" +:+ a)) = true)
         (take (processed_count st' - processed_count st) apps).
Proof.
  induction apps as [|app_num rest IH]; intros st st' Happs Hrun.
  - rewrite take_nil. constructor.
  - inversion Happs as [|? ? Ha Hrest]; subst.
    destruct (requests_run_apps W _ _ _ _ _ _ Hrun) as (n & _ & Hc & _).
    rewrite run_apps_cons in Hrun.
    destruct (stop_flag W (reads st)) eqn:Hstop.
    { injection Hrun as <-. simpl. rewrite Nat.sub_diag. constructor. }
    destruct (ensure_folder W _ (fs st)) as [d|] eqn:E; [|discriminate].
    assert (path_exists (fs (listed W api_key app_num d st))
              (path_join root_dir ("App_" +:+ app_num)) = true) as Hl.
    { change (path_exists d (path_join root_dir ("App_" +:+ app_num)) = true).
      revert E. generalize (path_join root_dir ("App_" +:+ app_num)). intros folder.
      unfold ensure_folder.
      destruct (path_exists (fs st) folder) eqn:Hex; [now intros [= <-]|].
      destruct (makedirs_fails W folder); [discriminate|].
      intros [= <-]. apply path_exists_insert. }
    assert (forall s,
              path_exists (fs s) (path_join root_dir ("App_" +:+ app_num)) = true ->
              processed_count s = S (processed_count st) ->
              run_apps W api_key (path_join root_dir "temp_headers_debug.txt") root_dir
                rest s = Done st' ->
              Forall (fun a => path_exists (fs st')
                                 (path_join root_dir ("App_" +:+ a)) = true)
                     (take (processed_count st' - processed_count st) (app_num :: rest)))
      as Hnext.
    { intros s Hs Hpc Hrest_run.
      destruct (requests_run_apps W _ _ _ _ _ _ Hrest_run) as (m & _ & Hm & _).
      replace (processed_count st' - processed_count st) with (S m) by lia.
      rewrite firstn_cons. constructor.
      - pose proof (exists_run_apps W api_key _ _ (app_folder_not_scratch root_dir app_num)
                      root_dir rest (folder_protected W root_dir app_num rest Ha Hrest)
                      s Hs) as Hkept.
        now rewrite Hrest_run in Hkept.
      - replace m with (processed_count st' - processed_count s) by lia.
        now apply IH. }
    destruct (list_documents W api_key (list_url_of app_num)) as [docs|];
      [|exact (Hnext _ Hl eq_refl Hrun)].
    destruct (negb (truthy docs)); [exact (Hnext _ Hl eq_refl Hrun)|].
    destruct (len docs); [|discriminate].
    destruct (iter docs) as [items|]; [|discriminate].
    pose proof (exists_run_docs W api_key _ _ (app_folder_not_scratch root_dir app_num)
                  app_num (path_join root_dir ("App_" +:+ app_num))
                  (list_url_of app_num) items) as Hdocs.
    pose proof (requests_run_docs W api_key (path_join root_dir "temp_headers_debug.txt")
                  app_num (path_join root_dir ("App_" +:+ app_num))
                  (list_url_of app_num) items (listed W api_key app_num d st))
      as [_ Hpc].
    destruct (run_docs W api_key _ _ _ _ items _) as [st3|st3] eqn:Hrd; [|discriminate].
    apply (Hnext st3); [|exact Hpc|exact Hrun].
    assert (forall doc doc_id filename,
              doc_filename W app_num doc = Ret (doc_id, filename) ->
              path_join root_dir ("App_" +:+ app_num)
              <> path_join (path_join root_dir ("App_" +:+ app_num)) filename) as Hown.
    { intros doc doc_id filename Hname.
      destruct (doc_filename_prefix _ _ _ _ _ Hname) as [rest0 ->].
      now apply folder_not_target. }
    specialize (Hdocs Hown _ Hl).
    now rewrite Hrd in Hdocs.
Qed.

(** X12. The disk a finished run leaves: the scratch header file is gone,
    and the folder of every application the run counted is there, also of
    those whose list request failed or gave no documents. *)
Theorem finished_run_disk W entry_key txt_list chosen_dir d st :
  run_process W entry_key txt_list chosen_dir d = Finished st ->
  fs st !! path_join chosen_dir "temp_headers_debug.txt" = None /\
  Forall (fun a => path_exists (fs st) (path_join chosen_dir ("App_" +:+ a)) = true)
         (take (processed_count st) (app_numbers_of (strip txt_list))).
Proof.
  unfold run_process.
  destruct (is_empty (strip entry_key)); [discriminate|].
  pose proof (app_numbers_app_chars (strip txt_list)) as Happs.
  destruct (app_numbers_of (strip txt_list)) as [|a apps]; [discriminate|].
  destruct (is_empty chosen_dir); [discriminate|].
  destruct (run_apps W _ _ _ _ _) as [st1|st1] eqn:Hrun; [|discriminate].
  pose proof (folders_run_apps W _ _ _ _ _ Happs Hrun) as Hf.
  change (processed_count (initial_state d)) with 0 in Hf. rewrite Nat.sub_0_r in Hf.
  intros Hend. split.
  - pose proof (cleanup_finished _ _ _ Hend) as Hgone. unfold path_exists in Hgone.
    now destruct (fs st !! _).
  - assert (processed_count st = processed_count st1 /\
            forall p, p <> path_join chosen_dir "temp_headers_debug.txt" ->
                      fs st !! p = fs st1 !! p) as [Hpc Hfs].
    { unfold cleanup, remove in Hend. revert Hend.
      destruct (path_exists (fs st1) _); [|now intros [= <-]].
      destruct (fs st1 !! _) as [f|]; [|discriminate].
      destruct (removable f); [|discriminate].
      intros [= <-]. split; [reflexivity|].
      intros p Hp. cbn [set_fs fs]. now apply lookup_delete_ne. }
    rewrite Hpc. eapply List.Forall_impl; [|exact Hf].
    intros a' Ha'. unfold path_exists in *.
    now rewrite (Hfs _ (app_folder_not_scratch chosen_dir a')).
Qed.

Lemma finished_run_disk_witness :
  exists st,
    run_process two_documents_world "KEY" "17123456" "/out" ∅ = Finished st /\
    fs st !! path_join "/out" "temp_headers_debug.txt" = None /\
    Forall (fun a => path_exists (fs st) (path_join "/out" ("App_" +:+ a)) = true)
           (take (processed_count st) (app_numbers_of (strip "17123456"))).
Proof.
  destruct (run_process two_documents_world "KEY" "17123456" "/out" ∅) as [| | |st|st]
    eqn:E; try (vm_compute in E; discriminate E).
  exists st. split; [reflexivity|].
  exact (finished_run_disk _ _ _ _ _ _ E).
Defined.
